(** * Agentic commerce gateway: decision pipeline, policy, budget, risk,
      payment and audit trail

    A shallow embedding of the Python core of the repository
    (src/agentic/src and src/backend/agentic/src) and the properties the
    specification states about it.

    Conventions of the embedding.
    - Python [float]s are exact rationals ([Q]); the text Python prints for
      a float ([repr]) is an input of the model, the class [FloatText].
    - Python [str]s are [string]s whose characters are code points below 256.
    - A call that can raise returns a [result]; state a method mutates
      ([self], a dataclass instance it received) is passed in and returned.
    - What the running process reads from outside (the clock, fresh uuids,
      replies of the backend) is an explicit argument.
    - A record has the fields its dataclass declares (of the larger classes,
      those the embedded functions read). Where the code reads an attribute
      by name, reads an attribute the class does not declare, calls a method
      the class does not have or passes a constructor keyword arguments, the
      instance is the table of its attributes ([Obj.instance]), the class
      the list of what it declares, and the access or the call raises as
      Python does ([AttributeError], [TypeError]).
    - Functions, classes and enumeration members keep their names. A field
      name that several classes share ([request_id], [user_id], [error],
      ...) keeps its name in one record and carries a short prefix in the
      others, records of one module sharing one name space. *)

From Stdlib Require Import ZArith QArith Qround Qabs List String Ascii Lia Lqa Bool.
From stdpp Require Import base gmap strings.
Import ListNotations.

#[local] Open Scope string_scope.
#[local] Open Scope Z_scope.

(** ** Python basics *)

Module Py.

(** An exception: its class name and its message. *)
Record exn := Exn { exn_type : string; exn_msg : string }.

Inductive result (A : Type) :=
| Ok (a : A)
| Raise (e : exn).
Arguments Ok {A} a.
Arguments Raise {A} e.

Definition bind {A B} (r : result A) (k : A -> result B) : result B :=
  match r with
  | Ok a => k a
  | Raise e => Raise e
  end.

(** [str(e)] of an exception. *)
Definition str_exn (e : exn) : string := exn_msg e.

(** Truthiness ([if x:]) of the values the code tests. *)
Definition truthy_str (s : string) : bool := negb (String.eqb s "").
Definition truthy_ostr (o : option string) : bool :=
  match o with Some s => truthy_str s | None => false end.
Definition truthy_list {A} (l : list A) : bool :=
  match l with [] => false | _ => true end.
Definition truthy_Z (n : Z) : bool := negb (n =? 0).
Definition truthy_oZ (o : option Z) : bool :=
  match o with Some n => truthy_Z n | None => false end.

(** Comparisons of floats. *)
Definition Qleb (x y : Q) : bool := Qle_bool x y.
Definition Qltb (x y : Q) : bool := negb (Qle_bool y x).
Definition Qgtb (x y : Q) : bool := Qltb y x.
Definition Qgeb (x y : Q) : bool := Qleb y x.
Definition Qeqb (x y : Q) : bool := Qeq_bool x y.
Definition truthy_Q (x : Q) : bool := negb (Qeqb x 0).
Definition truthy_oQ (o : option Q) : bool :=
  match o with Some x => truthy_Q x | None => false end.
Definition Qmin (x y : Q) : Q := if Qleb x y then x else y.
Definition Qmax (x y : Q) : Q := if Qleb y x then x else y.

(** [l.append(x)]. *)
Definition push {A} (l : list A) (x : A) : list A := (l ++ [x])%list.

(** [x in l] for lists of strings and of integers. *)
Definition in_strs (x : string) (l : list string) : bool :=
  existsb (String.eqb x) l.
Definition in_ints (x : Z) (l : list Z) : bool := existsb (Z.eqb x) l.

Definition ostr_eqb (a b : option string) : bool :=
  match a, b with
  | Some x, Some y => String.eqb x y
  | None, None => true
  | _, _ => false
  end.

(** *** Decimal and hexadecimal text *)

Definition digit_char (d : Z) : ascii :=
  ascii_of_nat (Z.to_nat (if d <? 10 then 48 + d else 87 + d)).

Fixpoint dec_digits (fuel : nat) (n : Z) (acc : string) : string :=
  match fuel with
  | O => acc
  | S f =>
      let acc' := String (digit_char (n mod 10)) acc in
      if n <? 10 then acc' else dec_digits f (n / 10) acc'
  end.

(** [str(n)] of an integer. *)
Definition str_nonneg (n : Z) : string :=
  dec_digits (S (Z.to_nat (Z.log2 n))) n "".
Definition str_int (n : Z) : string :=
  if n <? 0 then "-" ++ str_nonneg (- n) else str_nonneg n.

Fixpoint zeros (n : nat) : string :=
  match n with O => "" | S m => String "0" (zeros m) end.

(** ["%0<w>d"] of a natural number. *)
Definition zfill (w : nat) (n : Z) : string :=
  let s := str_nonneg n in zeros (w - String.length s) ++ s.

Definition hex2 (n : Z) : string :=
  String (digit_char (Z.land (Z.shiftr n 4) 15))
         (String (digit_char (Z.land n 15)) "").

Definition code (c : ascii) : Z := Z.of_nat (nat_of_ascii c).

(** [format(x, ".<d>f")]: round to [d] decimals, ties to even. *)
Definition round_half_even (x : Q) : Z :=
  let fl := Qfloor x in
  let r := (x - inject_Z fl)%Q in
  if Qltb r (1 # 2) then fl
  else if Qltb (1 # 2) r then fl + 1
  else if Z.even fl then fl else fl + 1.

Definition fmt_f (d : nat) (x : Q) : string :=
  let scale := 10 ^ Z.of_nat d in
  let n := round_half_even (Qabs x * inject_Z scale)%Q in
  let body :=
    match d with
    | O => str_nonneg n
    | _ => str_nonneg (n / scale) ++ "." ++ zfill d (n mod scale)
    end in
  if Qltb x 0 then "-" ++ body else body.

(** [repr(s)] of a string. *)
Definition printable (c : ascii) : bool :=
  let n := code c in
  ((32 <=? n) && (n <=? 126)) || ((161 <=? n) && negb (n =? 173)).

Definition has_char (c : ascii) (s : string) : bool :=
  existsb (Ascii.eqb c) (list_ascii_of_string s).

Definition repr_char (quote c : ascii) : string :=
  if code c =? 92 then "\\"
  else if Ascii.eqb c quote then String (ascii_of_nat 92) (String quote "")
  else if code c =? 9 then "\t"
  else if code c =? 10 then "\n"
  else if code c =? 13 then "\r"
  else if printable c then String c ""
  else "\x" ++ hex2 (code c).

Definition dquote : ascii := ascii_of_nat 34.
Definition squote : ascii := ascii_of_nat 39.
Definition backslash : ascii := ascii_of_nat 92.

Definition repr_str (s : string) : string :=
  let quote : ascii :=
    if has_char squote s && negb (has_char dquote s) then dquote else squote in
  String quote
    (String.concat "" (map (repr_char quote) (list_ascii_of_string s))
     ++ String quote "").

(** [repr(l)] of a list of strings and of a list of integers. *)
Definition repr_strs (l : list string) : string :=
  "[" ++ String.concat ", " (map repr_str l) ++ "]".
Definition repr_ints (l : list Z) : string :=
  "[" ++ String.concat ", " (map str_int l) ++ "]".

End Py.

Export Py.

(** The text of a float: [repr(x)], which is also [str(x)] and what
    [json.dumps] writes. Python prints the shortest decimal that reads back
    as the same float; the embedding takes that function as given. *)
Class FloatText := float_repr : Q -> string.

(** ** SHA-256 ([hashlib.sha256(...).hexdigest()]), after FIPS 180-4 *)

Module SHA256.

Definition mask32 : Z := 2 ^ 32 - 1.
Definition w32 (x : Z) : Z := Z.land x mask32.
Definition add32 (x y : Z) : Z := w32 (x + y).
Definition rotr (n x : Z) : Z :=
  Z.lor (Z.shiftr x n) (w32 (Z.shiftl x (32 - n))).
Definition shr (n x : Z) : Z := Z.shiftr x n.
Definition Ch (x y z : Z) : Z :=
  Z.lxor (Z.land x y) (Z.land (Z.lxor x mask32) z).
Definition Maj (x y z : Z) : Z :=
  Z.lxor (Z.lxor (Z.land x y) (Z.land x z)) (Z.land y z).
Definition bsig0 (x : Z) : Z := Z.lxor (Z.lxor (rotr 2 x) (rotr 13 x)) (rotr 22 x).
Definition bsig1 (x : Z) : Z := Z.lxor (Z.lxor (rotr 6 x) (rotr 11 x)) (rotr 25 x).
Definition ssig0 (x : Z) : Z := Z.lxor (Z.lxor (rotr 7 x) (rotr 18 x)) (shr 3 x).
Definition ssig1 (x : Z) : Z := Z.lxor (Z.lxor (rotr 17 x) (rotr 19 x)) (shr 10 x).

(** The round constants are the first 32 bits of the fractional parts of
    the cube roots of the first 64 primes, the initial state those of the
    square roots of the first 8: they are computed, not listed. *)
Definition is_prime (n : nat) : bool :=
  forallb (fun d => negb (Nat.eqb (Nat.modulo n d) 0)) (seq 2 (n - 2)).
Definition primes64 : list Z :=
  map Z.of_nat (firstn 64 (List.filter is_prime (seq 2 320))).

Fixpoint icbrt_bits (bits : nat) (n acc : Z) : Z :=
  match bits with
  | O => acc
  | S b =>
      let cand := acc + 2 ^ Z.of_nat b in
      icbrt_bits b n (if cand * cand * cand <=? n then cand else acc)
  end.
Definition icbrt (n : Z) : Z := icbrt_bits 40 n 0.

Definition K : list Z :=
  Eval vm_compute in map (fun p => w32 (icbrt (p * 2 ^ 96))) primes64.
Definition H0 : list Z :=
  Eval vm_compute in map (fun p => w32 (Z.sqrt (p * 2 ^ 64))) (firstn 8 primes64).

(** Padding: 0x80, zero bytes up to 56 modulo 64, the bit length on 8 bytes. *)
Definition be_bytes (n : nat) (x : Z) : list Z :=
  map (fun i => Z.land (Z.shiftr x (8 * Z.of_nat (n - 1 - i))) 255) (seq 0 n).
Definition pad (msg : list Z) : list Z :=
  let len := Z.of_nat (length msg) in
  msg ++ [128] ++ repeat 0 (Z.to_nat ((55 - len) mod 64)) ++ be_bytes 8 (8 * len).

Fixpoint chunks (fuel n : nat) (l : list Z) : list (list Z) :=
  match fuel with
  | O => []
  | S f =>
      match l with
      | [] => []
      | _ => firstn n l :: chunks f n (skipn n l)
      end
  end.
Definition be_word (bs : list Z) : Z :=
  fold_left (fun acc b => acc * 256 + b) bs 0.
Definition block_words (block : list Z) : list Z :=
  map be_word (chunks 16 4 block).

(** The message schedule, newest word first while it is extended. *)
Fixpoint extend (n : nat) (r : list Z) : list Z :=
  match n with
  | O => r
  | S m =>
      let wt := add32 (add32 (ssig1 (nth 1 r 0)) (nth 6 r 0))
                      (add32 (ssig0 (nth 14 r 0)) (nth 15 r 0)) in
      extend m (wt :: r)
  end.
Definition schedule (block : list Z) : list Z :=
  rev (extend 48 (rev (block_words block))).

Record state := mkState
  { sa : Z; sb : Z; sc : Z; sd : Z; se : Z; sf : Z; sg : Z; sh : Z }.

Definition round (s : state) (kw : Z * Z) : state :=
  let t1 := add32 (add32 (add32 (sh s) (bsig1 (se s))) (Ch (se s) (sf s) (sg s)))
                  (add32 (fst kw) (snd kw)) in
  let t2 := add32 (bsig0 (sa s)) (Maj (sa s) (sb s) (sc s)) in
  mkState (add32 t1 t2) (sa s) (sb s) (sc s) (add32 (sd s) t1) (se s) (sf s) (sg s).

Definition compress (s : state) (block : list Z) : state :=
  let r := fold_left round (combine K (schedule block)) s in
  mkState (add32 (sa s) (sa r)) (add32 (sb s) (sb r)) (add32 (sc s) (sc r))
          (add32 (sd s) (sd r)) (add32 (se s) (se r)) (add32 (sf s) (sf r))
          (add32 (sg s) (sg r)) (add32 (sh s) (sh r)).

Definition init : state :=
  mkState (nth 0 H0 0) (nth 1 H0 0) (nth 2 H0 0) (nth 3 H0 0)
          (nth 4 H0 0) (nth 5 H0 0) (nth 6 H0 0) (nth 7 H0 0).

Definition digest_words (msg : list Z) : list Z :=
  let p := pad msg in
  let s := fold_left compress (chunks (length p) 64 p) init in
  [sa s; sb s; sc s; sd s; se s; sf s; sg s; sh s].

Definition hex_word (x : Z) : string :=
  string_of_list_ascii
    (map (fun i => digit_char (Z.land (Z.shiftr x (4 * Z.of_nat (7 - i))) 15))
         (seq 0 8)).

(** [s.encode()]: UTF-8. *)
Definition utf8 (s : string) : list Z :=
  flat_map (fun c => let n := code c in
                     if n <? 128 then [n]
                     else [Z.lor 192 (Z.shiftr n 6); Z.lor 128 (Z.land n 63)])
           (list_ascii_of_string s).

Definition hexdigest (s : string) : string :=
  String.concat "" (map hex_word (digest_words (utf8 s))).

End SHA256.

(** ** [json.dumps] *)

Module Json.

#[local] Set Warnings "-register-all".

Inductive json :=
| JNull
| JBool (b : bool)
| JInt (n : Z)
| JFloat (x : Q)
| JStr (s : string)
| JList (l : list json)
| JDict (items : list (string * json)).

(** A Python [dict] with string keys, in insertion order. *)
Definition dict := list (string * json).

Fixpoint dict_get (d : dict) (k : string) : option json :=
  match d with
  | [] => None
  | (k', v) :: r => if String.eqb k k' then Some v else dict_get r k
  end.

(** [d[k] = v]: an existing key keeps its place. *)
Fixpoint dict_set (d : dict) (k : string) (v : json) : dict :=
  match d with
  | [] => [(k, v)]
  | (k', v') :: r =>
      if String.eqb k k' then (k', v) :: r else (k', v') :: dict_set r k v
  end.

(** [{**a, **b}]. *)
Definition dict_update (a b : dict) : dict :=
  fold_left (fun acc kv => dict_set acc (fst kv) (snd kv)) b a.

Definition escape_char (c : ascii) : string :=
  let n := code c in
  if n =? 34 then String backslash (String dquote "")
  else if n =? 92 then String backslash (String backslash "")
  else if n =? 10 then "\n"
  else if n =? 13 then "\r"
  else if n =? 9 then "\t"
  else if n =? 8 then "\b"
  else if n =? 12 then "\f"
  else if (32 <=? n) && (n <=? 126) then String c ""
  else "\u00" ++ hex2 n.

(** A string literal ([ensure_ascii=True]). *)
Definition quote (s : string) : string :=
  String dquote
    (String.concat "" (map escape_char (list_ascii_of_string s))
     ++ String dquote "").

Fixpoint insert_by_key (kv : string * string) (l : list (string * string))
  : list (string * string) :=
  match l with
  | [] => [kv]
  | kv' :: r =>
      if String.leb (fst kv) (fst kv') then kv :: l
      else kv' :: insert_by_key kv r
  end.
Definition sort_by_key (l : list (string * string)) : list (string * string) :=
  fold_right insert_by_key [] l.

Section Dumps.
Context {ft : FloatText}.

(** [json.dumps(v, sort_keys=sort_keys)]; the members of an object are
    rendered first and then put in key order. *)
Fixpoint dumps (sort_keys : bool) (v : json) : string :=
  match v with
  | JNull => "null"
  | JBool true => "true"
  | JBool false => "false"
  | JInt n => str_int n
  | JFloat x => float_repr x
  | JStr s => quote s
  | JList l =>
      "[" ++ String.concat ", "
               ((fix each (l : list json) : list string :=
                   match l with
                   | [] => []
                   | x :: r => dumps sort_keys x :: each r
                   end) l) ++ "]"
  | JDict items =>
      let rendered :=
        (fix each (l : list (string * json)) : list (string * string) :=
           match l with
           | [] => []
           | (k, x) :: r => (k, dumps sort_keys x) :: each r
           end) items in
      let ordered := if sort_keys then sort_by_key rendered else rendered in
      "{" ++ String.concat ", "
               (map (fun kv => quote (fst kv) ++ ": " ++ snd kv) ordered) ++ "}"
  end.

End Dumps.

Definition of_ostr (o : option string) : json :=
  match o with Some s => JStr s | None => JNull end.
Definition of_strs (l : list string) : json := JList (map JStr l).
Definition of_ints (l : list Z) : json := JList (map JInt l).

End Json.

Export Json.

(** ** [datetime] *)

Module Datetime.

Record datetime := mkDatetime
  { year : Z; month : Z; day : Z;
    hour : Z; minute : Z; second : Z; microsecond : Z }.

(** [dt.isoformat()]. *)
Definition isoformat (t : datetime) : string :=
  zfill 4 (year t) ++ "-" ++ zfill 2 (month t) ++ "-" ++ zfill 2 (day t)
  ++ "T" ++ zfill 2 (hour t) ++ ":" ++ zfill 2 (minute t) ++ ":"
  ++ zfill 2 (second t)
  ++ (if microsecond t =? 0 then "" else "." ++ zfill 6 (microsecond t)).

(** Days since 1970-01-01 in the proleptic Gregorian calendar. *)
Definition days_from_civil (y m d : Z) : Z :=
  let y' := if m <=? 2 then y - 1 else y in
  let era := y' / 400 in
  let yoe := y' - era * 400 in
  let mp := (m + 9) mod 12 in
  let doy := (153 * mp + 2) / 5 + d - 1 in
  let doe := yoe * 365 + yoe / 4 - yoe / 100 + doy in
  era * 146097 + doe - 719468.

(** [dt.weekday()]: 0 is Monday. *)
Definition weekday (t : datetime) : Z :=
  (days_from_civil (year t) (month t) (day t) + 3) mod 7.

Definition micros (t : datetime) : Z :=
  (((days_from_civil (year t) (month t) (day t) * 24 + hour t) * 60
    + minute t) * 60 + second t) * 1000000 + microsecond t.

(** [(a - b).seconds]: the seconds field of the normalised difference,
    between 0 and 86399, days left out. *)
Definition delta_seconds (a b : datetime) : Z :=
  ((micros a - micros b) / 1000000) mod 86400.

End Datetime.

Export Datetime.

(** ** Python objects: attributes, keyword arguments, method lookup *)

Module Obj.

(** What an attribute or a keyword argument holds. *)
Inductive value :=
| VJson (j : json)
| VDatetime (t : datetime)
| VEnum (cls member : string).

Definition VNone : value := VJson JNull.
Definition VBool (b : bool) : value := VJson (JBool b).
Definition VFloat (x : Q) : value := VJson (JFloat x).
Definition VStr (s : string) : value := VJson (JStr s).
Definition VOStr (o : option string) : value := VJson (of_ostr o).
Definition VOFloat (o : option Q) : value :=
  match o with Some x => VFloat x | None => VNone end.

(** [type(v).__name__]. *)
Definition type_name (v : value) : string :=
  match v with
  | VJson JNull => "NoneType"
  | VJson (JBool _) => "bool"
  | VJson (JInt _) => "int"
  | VJson (JFloat _) => "float"
  | VJson (JStr _) => "str"
  | VJson (JList _) => "list"
  | VJson (JDict _) => "dict"
  | VDatetime _ => "datetime.datetime"
  | VEnum cls _ => cls
  end.

(** Truthiness ([if v:], [not v]). *)
Definition truthy (v : value) : bool :=
  match v with
  | VJson JNull => false
  | VJson (JBool b) => b
  | VJson (JInt n) => truthy_Z n
  | VJson (JFloat x) => truthy_Q x
  | VJson (JStr s) => truthy_str s
  | VJson (JList l) => truthy_list l
  | VJson (JDict d) => truthy_list d
  | VDatetime _ => true
  | VEnum _ _ => true
  end.

(** The attributes of an instance, by name. *)
Definition instance := list (string * value).

Fixpoint find_attribute (attrs : instance) (name : string) : option value :=
  match attrs with
  | [] => None
  | (k, v) :: r => if String.eqb name k then Some v else find_attribute r name
  end.

(** [obj.name]. *)
Definition attribute (cls : string) (attrs : instance) (name : string)
  : Py.result value :=
  match find_attribute attrs name with
  | Some v => Ok v
  | None =>
      Raise (Exn "AttributeError"
               ("'" ++ cls ++ "' object has no attribute '" ++ name ++ "'"))
  end.

(** [getattr(obj, name, default)]. *)
Definition getattr (attrs : instance) (name : string) (default : value)
  : value :=
  match find_attribute attrs name with
  | Some v => v
  | None => default
  end.

(** [obj.name] where [name] is to be a method or attribute among those the
    class of [obj] declares. *)
Definition method (cls : string) (declared : list string) (name : string)
  : Py.result unit :=
  if in_strs name declared then Ok tt
  else Raise (Exn "AttributeError"
                ("'" ++ cls ++ "' object has no attribute '" ++ name ++ "'")).

(** A value as a number: [int], [float] and [bool] are numbers. *)
Definition as_number (v : value) : option Q :=
  match v with
  | VJson (JInt n) => Some (inject_Z n)
  | VJson (JFloat x) => Some x
  | VJson (JBool b) => Some (if b then 1%Q else 0%Q)
  | _ => None
  end.

(** [v op k] and [k op v] for a comparison [op], a value [v] and a number
    [k] of type [number_type]: between numbers the comparison [test], with
    anything else a [TypeError]. *)
Definition value_vs (op : string) (test : Q -> Q -> bool) (v : value)
    (number_type : string) (k : Q) : Py.result bool :=
  match as_number v with
  | Some x => Ok (test x k)
  | None =>
      Raise (Exn "TypeError"
               ("'" ++ op ++ "' not supported between instances of '"
                ++ type_name v ++ "' and '" ++ number_type ++ "'"))
  end.

Definition number_vs (op : string) (test : Q -> Q -> bool)
    (number_type : string) (k : Q) (v : value) : Py.result bool :=
  match as_number v with
  | Some x => Ok (test k x)
  | None =>
      Raise (Exn "TypeError"
               ("'" ++ op ++ "' not supported between instances of '"
                ++ number_type ++ "' and '" ++ type_name v ++ "'"))
  end.

(** [v - w]: between numbers the difference, with anything else a
    [TypeError]. *)
Definition minus (v w : value) : Py.result Q :=
  match as_number v, as_number w with
  | Some x, Some y => Ok (x - y)%Q
  | _, _ =>
      Raise (Exn "TypeError"
               ("unsupported operand type(s) for -: '" ++ type_name v
                ++ "' and '" ++ type_name w ++ "'"))
  end.

(** The names in the message of a call that leaves required arguments out. *)
Fixpoint name_tail (names : list string) : string :=
  match names with
  | [] => ""
  | [z] => "and '" ++ z ++ "'"
  | y :: r => "'" ++ y ++ "', " ++ name_tail r
  end.
Definition name_list (names : list string) : string :=
  match names with
  | [] => ""
  | [a] => "'" ++ a ++ "'"
  | [a; b] => "'" ++ a ++ "' and '" ++ b ++ "'"
  | _ => name_tail names
  end.

(** [Class(k1=v1, ...)] for a dataclass [Class] with the given fields, each
    with its default if it has one: the generated [__init__]. A keyword that
    is no field raises, then a field without default that is not given (the
    messages are worded as CPython 3.10 words them). *)
Definition new (cls : string) (fields : list (string * option value))
    (kwargs : instance) : Py.result instance :=
  match List.find (fun kv => negb (in_strs (fst kv) (map fst fields))) kwargs with
  | Some (k, _) =>
      Raise (Exn "TypeError"
               (cls ++ ".__init__() got an unexpected keyword argument '"
                ++ k ++ "'"))
  | None =>
      let missing :=
        List.filter
          (fun f =>
             match snd f, find_attribute kwargs (fst f) with
             | None, None => true
             | _, _ => false
             end) fields in
      match missing with
      | [] =>
          Ok (map (fun f =>
                     (fst f,
                      match find_attribute kwargs (fst f), snd f with
                      | Some v, _ => v
                      | None, Some d => d
                      | None, None => VNone
                      end)) fields)
      | _ =>
          Raise (Exn "TypeError"
                   (cls ++ ".__init__() missing "
                    ++ str_int (Z.of_nat (length missing))
                    ++ " required positional argument"
                    ++ (if (length missing =? 1)%nat then "" else "s")
                    ++ ": " ++ name_list (map fst missing)))
      end
  end.

(** [obj.name = v]. *)
Fixpoint set_attribute (attrs : instance) (name : string) (v : value)
  : instance :=
  match attrs with
  | [] => [(name, v)]
  | (k, v') :: r =>
      if String.eqb name k then (k, v) :: r
      else (k, v') :: set_attribute r name v
  end.

End Obj.

(** ** Configuration (src/agentic/src/config.py) *)

Module Config.

(** An entry of [ENDPOINTS]: a base path, or a table of named paths. *)
Inductive entry :=
| Base (path : string)
| Table (paths : list (string * string)).

Definition ENDPOINTS : list (string * entry) :=
  [ ("users",
     Table [ ("get_user", "/users/{user_id}");
             ("get_context", "/users/{user_id}/context");
             ("update_user", "/users/{user_id}") ]);
    ("policies",
     Table [ ("get_policy", "/policies/{user_id}/{project_id}");
             ("update_policy", "/policies/{user_id}/{project_id}");
             ("validate_provider",
              "/policies/{user_id}/{project_id}/validate-provider");
             ("validate_model",
              "/policies/{user_id}/{project_id}/validate-model") ]);
    ("budgets", Base "/budgets");
    ("pricing", Base "/pricing");
    ("requests",
     Table [ ("create_request", "/requests");
             ("get_request", "/requests/{request_id}");
             ("update_request", "/requests/{request_id}");
             ("get_user_requests", "/requests/user/{user_id}") ]);
    ("audits",
     Table [ ("create_log", "/audits");
             ("add_entry", "/audits/{audit_id}/entries");
             ("get_log", "/audits/{audit_id}");
             ("get_request_logs", "/audits/request/{request_id}") ]);
    ("risk",
     Table [ ("get_baseline", "/risk/baseline/{user_id}/{project_id}");
             ("update_baseline", "/risk/baseline/{user_id}/{project_id}");
             ("assess_risk", "/risk/assess");
             ("get_assessment", "/risk/assessment/{assessment_id}") ]);
    ("decisions",
     Table [ ("create_decision", "/decisions");
             ("get_decision", "/decisions/{decision_id}");
             ("get_request_decision", "/decisions/request/{request_id}") ]);
    ("costs",
     Table [ ("get_pricing", "/costs/pricing/{provider}/{model}");
             ("estimate_cost", "/costs/estimate");
             ("compare_costs", "/costs/compare") ]) ].

Fixpoint assoc {A} (l : list (string * A)) (k : string) : option A :=
  match l with
  | [] => None
  | (k', v) :: r => if String.eqb k k' then Some v else assoc r k
  end.

(** [s.replace(old, new)] for a non-empty [old]: every occurrence, left to
    right; [skip] counts the characters of an occurrence still to drop. *)
Fixpoint replace_from (old new : string) (skip : nat) (s : string) : string :=
  match s with
  | EmptyString => EmptyString
  | String c rest =>
      match skip with
      | S k => replace_from old new k rest
      | O =>
          if String.prefix old s then
            new ++ replace_from old new (String.length old - 1) rest
          else String c (replace_from old new 0 rest)
      end
  end.
Definition replace (old new s : string) : string := replace_from old new 0 s.

(** [Config.get_endpoint(category, endpoint_name, **kwargs)];
    [BACKEND_API_URL] is read from the environment. *)
Definition get_endpoint (BACKEND_API_URL : string) (category : string)
    (endpoint_name : option string) (kwargs : list (string * string))
  : Py.result string :=
  let endpoint := assoc ENDPOINTS category in
  match endpoint with
  | Some (Base path) => Ok (BACKEND_API_URL ++ path)
  | _ =>
      match endpoint_name with
      | None =>
          Raise (Exn "ValueError"
                   ("endpoint_name required for category '" ++ category ++ "'"))
      | Some name =>
          match endpoint with
          | Some (Table paths) =>
              match assoc paths name with
              | None => Raise (Exn "KeyError" (repr_str name))
              | Some endpoint_path =>
                  Ok (BACKEND_API_URL
                      ++ fold_left
                           (fun path kv =>
                              replace ("{" ++ fst kv ++ "}") (snd kv) path)
                           kwargs endpoint_path)
              end
          | _ =>
              Raise (Exn "TypeError" "'NoneType' object is not subscriptable")
          end
      end
  end.

End Config.

(** ** Requests, policies, decisions (models/) *)

Module Models.

(** models/request.py, [RequestStatus]. *)
Module RequestStatus.
Inductive t :=
| PENDING | VALIDATING | APPROVED | REJECTED | EXECUTING | EXECUTED | FAILED
| CANCELLED.
End RequestStatus.

(** models/request.py, [APIRequest]: the fields the dataclass declares
    ([timestamp], [status] and [metadata] carry the prefix [rq_]). *)
Record APIRequest := mkAPIRequest
  { user_id : string;
    project_id : string;
    request_id : string;
    agent_id : option string;
    api_provider : string;
    model_name : string;
    operation_type : string;
    request_params : dict;
    estimated_cost : Q;
    actual_cost : option Q;
    rq_timestamp : datetime;
    rq_status : RequestStatus.t;
    provider_whitelist_verified : bool;
    model_whitelist_verified : bool;
    rq_metadata : dict }.

Definition status_member (s : RequestStatus.t) : string :=
  match s with
  | RequestStatus.PENDING => "PENDING"
  | RequestStatus.VALIDATING => "VALIDATING"
  | RequestStatus.APPROVED => "APPROVED"
  | RequestStatus.REJECTED => "REJECTED"
  | RequestStatus.EXECUTING => "EXECUTING"
  | RequestStatus.EXECUTED => "EXECUTED"
  | RequestStatus.FAILED => "FAILED"
  | RequestStatus.CANCELLED => "CANCELLED"
  end.

(** The attributes of an [APIRequest] instance, for the code that reads a
    request by attribute name ([getattr]) or reads an attribute the dataclass
    does not declare. *)
Definition attributes (r : APIRequest) : Obj.instance :=
  [ ("user_id", Obj.VStr (user_id r));
    ("project_id", Obj.VStr (project_id r));
    ("request_id", Obj.VStr (request_id r));
    ("agent_id", Obj.VOStr (agent_id r));
    ("api_provider", Obj.VStr (api_provider r));
    ("model_name", Obj.VStr (model_name r));
    ("operation_type", Obj.VStr (operation_type r));
    ("request_params", Obj.VJson (JDict (request_params r)));
    ("estimated_cost", Obj.VFloat (estimated_cost r));
    ("actual_cost", Obj.VOFloat (actual_cost r));
    ("timestamp", Obj.VDatetime (rq_timestamp r));
    ("status", Obj.VEnum "RequestStatus" (status_member (rq_status r)));
    ("provider_whitelist_verified", Obj.VBool (provider_whitelist_verified r));
    ("model_whitelist_verified", Obj.VBool (model_whitelist_verified r));
    ("metadata", Obj.VJson (JDict (rq_metadata r))) ].

(** [request.estimated_cost = c]. *)
Definition set_estimated_cost (r : APIRequest) (c : Q) : APIRequest :=
  mkAPIRequest (user_id r) (project_id r) (request_id r) (agent_id r)
               (api_provider r) (model_name r) (operation_type r)
               (request_params r) c (actual_cost r) (rq_timestamp r)
               (rq_status r) (provider_whitelist_verified r)
               (model_whitelist_verified r) (rq_metadata r).

(** models/user.py, [UserPolicy]. *)
Record UserPolicy := mkUserPolicy
  { allowed_providers : list string;
    allowed_models : gmap string (list string);
    forbidden_providers : list string;
    forbidden_operations : list string;
    per_request_limit : Q;
    daily_budget : Q;
    monthly_budget : Q;
    allowed_hours : option (list Z);
    allowed_days : option (list Z);
    max_risk_score : Q;
    auto_approve_risk_threshold : Q;
    is_active : bool }.

(** policies/policy_manager.py (backend), [SystemPolicy]. *)
Record SystemPolicy := mkSystemPolicy
  { blocked_providers : list string;
    blocked_models : list string;
    blocked_operations : list string;
    max_per_request_limit : Q;
    max_daily_limit : Q;
    retention_days : Z }.

(** models/user.py, [UserContext]: what the risk checks read. *)
Record UserContext := mkUserContext
  { policy : option UserPolicy;
    agents : list string;
    total_spent_today : Q;
    total_requests_today : Z;
    recent_rejections : Z }.

(** [UserContext.get_remaining_daily_budget]. *)
Definition get_remaining_daily_budget (c : UserContext) (p : UserPolicy) : Q :=
  Qmax 0 (daily_budget p - total_spent_today c)%Q.

(** models/risk.py, [UserBaseline]: what the risk checks read. *)
Record UserBaseline := mkUserBaseline
  { average_request_cost : Q;
    average_requests_per_day : Q;
    typical_providers : list string;
    typical_models : list string;
    typical_hours : list Z }.

(** Modelled from the spec: [DecisionOutcome] and [Decision] of
    models/decision.py, which the Decision Engine imports and the file does
    not define (it defines [ApprovalDecision]). Outcomes and fields are those
    of the spec's Decision record that the engine sets. *)
Inductive DecisionOutcome := APPROVED | REJECTED | ESCALATED | ERROR.

Definition outcome_value (o : DecisionOutcome) : string :=
  match o with
  | APPROVED => "APPROVED"
  | REJECTED => "REJECTED"
  | ESCALATED => "ESCALATED"
  | ERROR => "ERROR"
  end.

Record Decision := mkDecision
  { d_request_id : string;
    outcome : DecisionOutcome;
    rejection_reason : option string;
    reasoning : string;
    confidence : Q;
    agent_tier : string;
    d_agent_id : option string;
    d_risk_score : option Q }.

End Models.

Export Models.

(** ** Policy Manager (policies/policy_manager.py) *)

Module PolicyManager.

Record PolicyViolation := mkViolation
  { policy_name : string;
    violation_type : string;
    details : string;
    severity : string }.

Record ComplianceResult := mkCompliance
  { compliant : bool;
    violations : list PolicyViolation;
    warnings : list string;
    policies_checked : list string }.

(** [ComplianceResult()]. *)
Definition new_result : ComplianceResult := mkCompliance true [] [] [].

Definition add_violation (r : ComplianceResult)
    (name type details severity : string) : ComplianceResult :=
  mkCompliance false
    (violations r ++ [mkViolation name type details severity])
    (warnings r) (policies_checked r).

Definition add_warning (r : ComplianceResult) (message : string)
  : ComplianceResult :=
  mkCompliance (compliant r) (violations r) (warnings r ++ [message])
               (policies_checked r).

Definition checked (r : ComplianceResult) (name : string) : ComplianceResult :=
  mkCompliance (compliant r) (violations r) (warnings r)
               (policies_checked r ++ [name]).

(** [get_rejection_reason]. *)
Definition get_rejection_reason (r : ComplianceResult) : string :=
  match violations r with
  | [] => ""
  | first :: _ =>
      match List.filter (fun v => String.eqb (severity v) "critical") (violations r) with
      | c :: _ => "Critical violation: " ++ details c
      | [] =>
          match List.filter (fun v => String.eqb (severity v) "high") (violations r) with
          | h :: _ => "Policy violation: " ++ details h
          | [] => "Policy violation: " ++ details first
          end
      end
  end.

Section Checks.
Context {ft : FloatText}.

(** [_validate_provider]; the same text in src/agentic and src/backend. *)
Definition _validate_provider (provider : string) (policy : UserPolicy)
    (result : ComplianceResult) : bool * ComplianceResult :=
  let result := checked result "provider_whitelist" in
  if in_strs provider (forbidden_providers policy) then
    (false, add_violation result "provider_whitelist" "forbidden_provider"
              ("Provider '" ++ provider ++ "' is explicitly forbidden")
              "critical")
  else if negb (truthy_list (allowed_providers policy)) then
    (true, add_warning result "No providers configured in policy")
  else if negb (in_strs provider (allowed_providers policy)) then
    (false, add_violation result "provider_whitelist" "unauthorized_provider"
              ("Provider '" ++ provider ++ "' not in allowed list. Allowed: "
               ++ repr_strs (allowed_providers policy))
              "critical")
  else (true, result).

(** [_validate_model]; the same text in src/agentic and src/backend. *)
Definition _validate_model (model provider : string) (policy : UserPolicy)
    (result : ComplianceResult) : bool * ComplianceResult :=
  let result := checked result "model_whitelist" in
  match allowed_models policy !! provider with
  | None =>
      (true, add_warning result
               ("No model restrictions for provider '" ++ provider ++ "'"))
  | Some allowed_models_for_provider =>
      if negb (in_strs model allowed_models_for_provider) then
        (false, add_violation result "model_whitelist" "unauthorized_model"
                  ("Model '" ++ model ++ "' not allowed for provider '"
                   ++ provider ++ "'. Allowed: "
                   ++ repr_strs allowed_models_for_provider)
                  "critical")
      else (true, result)
  end.

Definition _validate_per_request_limit (cost : Q) (policy : UserPolicy)
    (result : ComplianceResult) : bool * ComplianceResult :=
  let result := checked result "per_request_limit" in
  if Qgtb cost (per_request_limit policy) then
    (false, add_violation result "per_request_limit" "cost_exceeded"
              ("Request cost $" ++ fmt_f 4 cost ++ " exceeds limit $"
               ++ float_repr (per_request_limit policy))
              "high")
  else (true, result).

Definition days_map : list string :=
  ["Monday"; "Tuesday"; "Wednesday"; "Thursday"; "Friday"; "Saturday"; "Sunday"].

Definition truthy_olist (o : option (list Z)) : bool :=
  match o with Some l => truthy_list l | None => false end.
Definition olist (o : option (list Z)) : list Z :=
  match o with Some l => l | None => [] end.

(** [_validate_time_restrictions]; [now] is [datetime.utcnow()]. *)
Definition _validate_time_restrictions (now : datetime) (policy : UserPolicy)
    (result : ComplianceResult) : bool * ComplianceResult :=
  let result := checked result "time_restrictions" in
  let current_hour := hour now in
  let current_day := weekday now in
  if truthy_olist (allowed_hours policy)
     && negb (in_ints current_hour (olist (allowed_hours policy))) then
    (false, add_violation result "time_restrictions" "outside_allowed_hours"
              ("Requests only allowed during hours: "
               ++ repr_ints (olist (allowed_hours policy))
               ++ ". Current hour: " ++ str_int current_hour)
              "medium")
  else if truthy_olist (allowed_days policy)
          && negb (in_ints current_day (olist (allowed_days policy))) then
    (false, add_violation result "time_restrictions" "outside_allowed_days"
              ("Requests only allowed on specified days. Current: "
               ++ nth (Z.to_nat current_day) days_map "")
              "medium")
  else (true, result).

(** [check_compliance] of src/backend (system layer, then user layer); the
    version of src/agentic is its user layer alone. [loaded] is what
    [load_system_policy] returns when no system policy is passed. *)
Definition check_compliance (now : datetime) (loaded : SystemPolicy)
    (request : APIRequest) (user_policy : UserPolicy)
    (system_policy : option SystemPolicy) : ComplianceResult :=
  let result := new_result in
  let system_policy :=
    match system_policy with Some s => s | None => loaded end in
  let result := checked result "system_policy" in
  if in_strs (api_provider request) (blocked_providers system_policy) then
    add_violation result "system_policy" "blocked_provider"
      ("Provider '" ++ api_provider request ++ "' is blocked by platform policy")
      "critical"
  else
  let model_key := api_provider request ++ "/" ++ model_name request in
  if in_strs model_key (blocked_models system_policy) then
    add_violation result "system_policy" "blocked_model"
      ("Model '" ++ model_key ++ "' is blocked by platform policy")
      "critical"
  else
  if Qgtb (estimated_cost request) (max_per_request_limit system_policy) then
    add_violation result "system_policy" "exceeds_system_limit"
      ("Request cost $" ++ fmt_f 2 (estimated_cost request)
       ++ " exceeds platform limit $"
       ++ fmt_f 2 (max_per_request_limit system_policy))
      "critical"
  else
  let result := checked result "user_policy" in
  let (ok, result) := _validate_provider (api_provider request) user_policy result in
  if negb ok then result else
  let (ok, result) :=
    _validate_model (model_name request) (api_provider request) user_policy result in
  if negb ok then result else
  let (_, result) :=
    _validate_per_request_limit (estimated_cost request) user_policy result in
  if negb (is_active user_policy) then
    add_violation result "user_policy" "inactive_policy"
      ("Policy for user " ++ user_id request ++ " is inactive") "critical"
  else
  let operation_key :=
    api_provider request ++ "." ++ model_name request ++ "."
    ++ operation_type request in
  let result :=
    if in_strs operation_key (forbidden_operations user_policy) then
      add_violation result "forbidden_operations" "operation_blocked"
        ("Operation " ++ operation_key ++ " is explicitly forbidden") "high"
    else result in
  let (_, result) := _validate_time_restrictions now user_policy result in
  result.

(** The allow-list part of the compliance step: provider, then model. *)
Definition replayed_allow_list (provider model : string) (policy : UserPolicy)
  : bool :=
  let (ok, result) := _validate_provider provider policy new_result in
  if negb ok then false
  else fst (_validate_model model provider policy result).

End Checks.

End PolicyManager.

(** ** Audit Logger (audit_logging/audit_logger.py) *)

Module AuditLogger.

Inductive EventType :=
| REQUEST_RECEIVED | POLICY_CHECK | BUDGET_CHECK | RISK_ASSESSMENT
| AGENT_DECISION | PAYMENT_RESERVED | PAYMENT_COMPLETED
| API_CALL_SUCCESS | API_CALL_FAILED | EV_ERROR.

Definition event_type_value (t : EventType) : string :=
  match t with
  | REQUEST_RECEIVED => "request_received"
  | POLICY_CHECK => "policy_check"
  | BUDGET_CHECK => "budget_check"
  | RISK_ASSESSMENT => "risk_assessment"
  | AGENT_DECISION => "agent_decision"
  | PAYMENT_RESERVED => "payment_reserved"
  | PAYMENT_COMPLETED => "payment_completed"
  | API_CALL_SUCCESS => "api_call_success"
  | API_CALL_FAILED => "api_call_failed"
  | EV_ERROR => "error"
  end.

Record AuditEvent := mkEvent
  { log_id : string;
    timestamp : datetime;
    ev_request_id : string;
    ev_user_id : string;
    ev_project_id : string;
    ev_agent_id : option string;
    event_type : EventType;
    event_details : dict;
    context_snapshot : dict;
    result : string;
    error : option string;
    previous_hash : option string;
    current_hash : option string }.

Record AuditTrail := mkTrail
  { tr_request_id : string;
    events : list AuditEvent;
    tr_user_id : option string;
    tr_project_id : option string;
    start_time : option datetime;
    end_time : option datetime;
    total_events : Z }.

(** [AuditTrail.add_event]. *)
Definition add_event (t : AuditTrail) (event : AuditEvent) : AuditTrail :=
  let events' := (events t ++ [event])%list in
  mkTrail (tr_request_id t) events' (tr_user_id t) (tr_project_id t)
          (match start_time t with
           | None => Some (timestamp event)
           | Some s => Some s
           end)
          (Some (timestamp event))
          (Z.of_nat (length events')).

(** The logger: the in-memory trails, the chain head, and the records
    appended to the day file, oldest first ([jsonl_line] is the line written
    for one). *)
Record Logger := mkLogger
  { _trails : gmap string AuditTrail;
    _last_hash : option string;
    log_file : list AuditEvent }.

(** [AuditLogger(log_dir)]. *)
Definition new_logger : Logger := mkLogger ∅ None [].

(** [_generate_log_id]; [uuid_hex] is [uuid.uuid4().hex]. *)
Definition _generate_log_id (uuid_hex : string) : string :=
  "log_" ++ String.substring 0 12 uuid_hex.

Section Hashing.
Context {ft : FloatText}.

(** [AuditEvent._calculate_hash]. *)
Definition _calculate_hash (e : AuditEvent) : string :=
  let content : dict :=
    [ ("log_id", JStr (log_id e));
      ("timestamp", JStr (isoformat (timestamp e)));
      ("request_id", JStr (ev_request_id e));
      ("user_id", JStr (ev_user_id e));
      ("project_id", JStr (ev_project_id e));
      ("agent_id", of_ostr (ev_agent_id e));
      ("event_type", JStr (event_type_value (event_type e)));
      ("event_details", JDict (event_details e));
      ("context_snapshot", JDict (context_snapshot e));
      ("result", JStr (result e));
      ("error", of_ostr (error e));
      ("previous_hash", of_ostr (previous_hash e)) ] in
  let content_str := dumps true (JDict content) in
  SHA256.hexdigest content_str.

(** [AuditEvent(...)] with its [__post_init__]. *)
Definition new_event (log_id : string) (timestamp : datetime)
    (request_id user_id project_id : string) (agent_id : option string)
    (event_type : EventType) (event_details context_snapshot : dict)
    (result : string) (error previous_hash current_hash : option string)
  : AuditEvent :=
  let e := mkEvent log_id timestamp request_id user_id project_id agent_id
                   event_type event_details context_snapshot result error
                   previous_hash current_hash in
  match current_hash with
  | None =>
      mkEvent log_id timestamp request_id user_id project_id agent_id
              event_type event_details context_snapshot result error
              previous_hash (Some (_calculate_hash e))
  | Some _ => e
  end.

(** The line [_write_event] hands to the file handler. *)
Definition jsonl_line (e : AuditEvent) : string :=
  dumps false
    (JDict
       [ ("log_id", JStr (log_id e));
         ("timestamp", JStr (isoformat (timestamp e)));
         ("request_id", JStr (ev_request_id e));
         ("user_id", JStr (ev_user_id e));
         ("project_id", JStr (ev_project_id e));
         ("agent_id", of_ostr (ev_agent_id e));
         ("event_type", JStr (event_type_value (event_type e)));
         ("event_details", JDict (event_details e));
         ("context_snapshot", JDict (context_snapshot e));
         ("result", JStr (result e));
         ("error", of_ostr (error e));
         ("previous_hash", of_ostr (previous_hash e));
         ("current_hash", of_ostr (current_hash e)) ]).

(** [_write_event]: append the line, move the chain head. *)
Definition _write_event (l : Logger) (event : AuditEvent) : Logger :=
  mkLogger (_trails l) (current_hash event) (log_file l ++ [event])%list.

(** The tail shared by every method but [log_request_received]:
    [if request_id in self._trails: self._trails[request_id].add_event(event)]. *)
Definition add_to_known_trail (l : Logger) (request_id : string)
    (event : AuditEvent) : Logger :=
  match _trails l !! request_id with
  | Some t =>
      mkLogger (<[request_id := add_event t event]> (_trails l))
               (_last_hash l) (log_file l)
  | None => l
  end.

(** Every method takes the two things it reads from outside:
    [uuid_hex] ([uuid.uuid4().hex]) and [now] ([datetime.utcnow()]). *)

Definition log_request_received (l : Logger) (uuid_hex : string) (now : datetime)
    (request_id user_id project_id : string) (agent_id : option string)
    (request_details : dict) : Logger :=
  let event :=
    new_event (_generate_log_id uuid_hex) now request_id user_id project_id
      agent_id REQUEST_RECEIVED request_details
      [("action", JStr "request_received")] "success" None (_last_hash l) None in
  let l := _write_event l event in
  let trail :=
    match _trails l !! request_id with
    | Some t => t
    | None => mkTrail request_id [] (Some user_id) (Some project_id) None None 0
    end in
  mkLogger (<[request_id := add_event trail event]> (_trails l))
           (_last_hash l) (log_file l).

Definition log_policy_check (l : Logger) (uuid_hex : string) (now : datetime)
    (request_id user_id project_id : string) (policies_checked : list string)
    (results : dict) (compliant : bool) : Logger :=
  let event :=
    new_event (_generate_log_id uuid_hex) now request_id user_id project_id
      None POLICY_CHECK
      [ ("policies_checked", of_strs policies_checked);
        ("results", JDict results);
        ("compliant", JBool compliant) ]
      [("action", JStr "policy_validation")]
      (if compliant then "success" else "failure")
      (if compliant then None else Some "Policy violations detected")
      (_last_hash l) None in
  add_to_known_trail (_write_event l event) request_id event.

Definition log_budget_check (l : Logger) (uuid_hex : string) (now : datetime)
    (request_id user_id project_id : string)
    (estimated_cost available_budget : Q) (budget_approved : bool) : Logger :=
  let event :=
    new_event (_generate_log_id uuid_hex) now request_id user_id project_id
      None BUDGET_CHECK
      [ ("estimated_cost", JFloat estimated_cost);
        ("available_budget", JFloat available_budget);
        ("budget_approved", JBool budget_approved) ]
      [("action", JStr "budget_check")]
      (if budget_approved then "success" else "failure")
      (if budget_approved then None else Some "Insufficient budget")
      (_last_hash l) None in
  add_to_known_trail (_write_event l event) request_id event.

Definition log_risk_assessment (l : Logger) (uuid_hex : string) (now : datetime)
    (request_id user_id project_id : string)
    (risk_score : Q) (risk_factors : json) (risk_level : string) : Logger :=
  let event :=
    new_event (_generate_log_id uuid_hex) now request_id user_id project_id
      None RISK_ASSESSMENT
      [ ("risk_score", JFloat risk_score);
        ("risk_factors", risk_factors);
        ("risk_level", JStr risk_level) ]
      [("action", JStr "risk_assessment")] "success" None
      (_last_hash l) None in
  add_to_known_trail (_write_event l event) request_id event.

Definition log_agent_decision (l : Logger) (uuid_hex : string) (now : datetime)
    (request_id user_id project_id agent_id agent_tier decision reasoning : string)
    (decision_details : dict) : Logger :=
  let event :=
    new_event (_generate_log_id uuid_hex) now request_id user_id project_id
      (Some agent_id) AGENT_DECISION
      (dict_update
         [ ("agent_tier", JStr agent_tier);
           ("decision", JStr decision);
           ("reasoning", JStr reasoning) ]
         decision_details)
      [("action", JStr "agent_decision")] "success" None
      (_last_hash l) None in
  add_to_known_trail (_write_event l event) request_id event.

Definition log_payment_reserved (l : Logger) (uuid_hex : string) (now : datetime)
    (request_id user_id project_id : string)
    (amount : Q) (tx_hash reservation_id : string) : Logger :=
  let event :=
    new_event (_generate_log_id uuid_hex) now request_id user_id project_id
      None PAYMENT_RESERVED
      [ ("amount", JFloat amount);
        ("tx_hash", JStr tx_hash);
        ("reservation_id", JStr reservation_id);
        ("currency", JStr "USDC") ]
      [("action", JStr "payment_reserved")] "success" None
      (_last_hash l) None in
  add_to_known_trail (_write_event l event) request_id event.

Definition log_payment_completed (l : Logger) (uuid_hex : string) (now : datetime)
    (request_id user_id project_id : string)
    (estimated_amount actual_amount variance : Q) : Logger :=
  let event :=
    new_event (_generate_log_id uuid_hex) now request_id user_id project_id
      None PAYMENT_COMPLETED
      [ ("estimated_amount", JFloat estimated_amount);
        ("actual_amount", JFloat actual_amount);
        ("variance", JFloat variance);
        ("variance_percent",
         if Qgtb estimated_amount 0
         then JFloat (variance / estimated_amount * 100)%Q
         else JInt 0) ]
      [("action", JStr "payment_completed")] "success" None
      (_last_hash l) None in
  add_to_known_trail (_write_event l event) request_id event.

Definition log_api_call_success (l : Logger) (uuid_hex : string) (now : datetime)
    (request_id user_id project_id provider model : string)
    (actual_cost : Q) (response_details : dict) : Logger :=
  let event :=
    new_event (_generate_log_id uuid_hex) now request_id user_id project_id
      None API_CALL_SUCCESS
      (dict_update
         [ ("provider", JStr provider);
           ("model", JStr model);
           ("actual_cost", JFloat actual_cost) ]
         response_details)
      [("action", JStr "api_call_success")] "success" None
      (_last_hash l) None in
  add_to_known_trail (_write_event l event) request_id event.

Definition log_api_call_failed (l : Logger) (uuid_hex : string) (now : datetime)
    (request_id user_id project_id provider model error : string) : Logger :=
  let event :=
    new_event (_generate_log_id uuid_hex) now request_id user_id project_id
      None API_CALL_FAILED
      [ ("provider", JStr provider);
        ("model", JStr model);
        ("error", JStr error) ]
      [("action", JStr "api_call_failed")] "failure" (Some error)
      (_last_hash l) None in
  add_to_known_trail (_write_event l event) request_id event.

Definition log_error (l : Logger) (uuid_hex : string) (now : datetime)
    (request_id user_id project_id error : string) (error_details : dict)
  : Logger :=
  let event :=
    new_event (_generate_log_id uuid_hex) now request_id user_id project_id
      None EV_ERROR error_details
      [("action", JStr "error")] "failure" (Some error)
      (_last_hash l) None in
  add_to_known_trail (_write_event l event) request_id event.

(** One logging call, with its arguments. *)
Inductive call :=
| RequestReceived (request_id user_id project_id : string)
    (agent_id : option string) (request_details : dict)
| PolicyCheck (request_id user_id project_id : string)
    (policies_checked : list string) (results : dict) (compliant : bool)
| BudgetCheck (request_id user_id project_id : string)
    (estimated_cost available_budget : Q) (budget_approved : bool)
| RiskAssessment (request_id user_id project_id : string)
    (risk_score : Q) (risk_factors : json) (risk_level : string)
| AgentDecision (request_id user_id project_id agent_id agent_tier
                 decision reasoning : string) (decision_details : dict)
| PaymentReserved (request_id user_id project_id : string)
    (amount : Q) (tx_hash reservation_id : string)
| PaymentCompleted (request_id user_id project_id : string)
    (estimated_amount actual_amount variance : Q)
| ApiCallSuccess (request_id user_id project_id provider model : string)
    (actual_cost : Q) (response_details : dict)
| ApiCallFailed (request_id user_id project_id provider model error : string)
| Error (request_id user_id project_id error : string) (error_details : dict).

(** A call in its setting: the uuid and the clock reading it draws. *)
Record timed_call := mkCall
  { the_call : call; call_uuid : string; call_now : datetime }.

Definition do_call (l : Logger) (c : timed_call) : Logger :=
  let u := call_uuid c in
  let n := call_now c in
  match the_call c with
  | RequestReceived r us p a d => log_request_received l u n r us p a d
  | PolicyCheck r us p pc res c => log_policy_check l u n r us p pc res c
  | BudgetCheck r us p e a b => log_budget_check l u n r us p e a b
  | RiskAssessment r us p s f lv => log_risk_assessment l u n r us p s f lv
  | AgentDecision r us p a t d rs dd => log_agent_decision l u n r us p a t d rs dd
  | PaymentReserved r us p a tx rid => log_payment_reserved l u n r us p a tx rid
  | PaymentCompleted r us p e a v => log_payment_completed l u n r us p e a v
  | ApiCallSuccess r us p pr m c d => log_api_call_success l u n r us p pr m c d
  | ApiCallFailed r us p pr m e => log_api_call_failed l u n r us p pr m e
  | Error r us p e d => log_error l u n r us p e d
  end.

(** A sequence of calls on one logger, in the order they run. *)
Definition run (calls : list timed_call) (l : Logger) : Logger :=
  fold_left do_call calls l.

End Hashing.

(** [previous_hash] links: every record names the hash of the one written
    just before it, the first names [head]. *)
Fixpoint chained (head : option string) (l : list AuditEvent) : Prop :=
  match l with
  | [] => True
  | e :: r => previous_hash e = head /\ chained (current_hash e) r
  end.

(** The chain head after the records [l], starting from [head]. *)
Definition tail_hash (head : option string) (l : list AuditEvent)
  : option string :=
  match last l with
  | Some e => current_hash e
  | None => head
  end.

(** The request a call is about. *)
Definition call_request_id (c : call) : string :=
  match c with
  | RequestReceived r _ _ _ _ => r
  | PolicyCheck r _ _ _ _ _ => r
  | BudgetCheck r _ _ _ _ _ => r
  | RiskAssessment r _ _ _ _ _ => r
  | AgentDecision r _ _ _ _ _ _ _ => r
  | PaymentReserved r _ _ _ _ _ => r
  | PaymentCompleted r _ _ _ _ _ => r
  | ApiCallSuccess r _ _ _ _ _ _ => r
  | ApiCallFailed r _ _ _ _ _ => r
  | Error r _ _ _ _ => r
  end.

(** The property the trail of one request would need: each event after the
    first names the hash of the event before it in the same trail. *)
Fixpoint trail_chained (l : list AuditEvent) : bool :=
  match l with
  | e1 :: ((e2 :: _) as r) =>
      ostr_eqb (previous_hash e2) (current_hash e1) && trail_chained r
  | _ => true
  end.

(** What one call does to the logger: it writes one record, linked to the
    chain head, moves the head to it, and files it under its request id if
    that trail exists (or, for [log_request_received], opens the trail). *)
Definition one_record (l l' : Logger) (rid : string) (event : AuditEvent)
  : Prop :=
  previous_hash event = _last_hash l /\
  ev_request_id event = rid /\
  log_file l' = (log_file l ++ [event])%list /\
  _last_hash l' = current_hash event /\
  match _trails l !! rid with
  | Some t => _trails l' = <[rid := add_event t event]> (_trails l)
  | None =>
      _trails l' = _trails l \/
      exists t, events t = [] /\
                _trails l' = <[rid := add_event t event]> (_trails l)
  end.

(** The invariant of the logger. *)
Definition chain_invariant (l : Logger) : Prop :=
  chained None (log_file l) /\
  _last_hash l = tail_hash None (log_file l) /\
  forall rid t, _trails l !! rid = Some t ->
    sublist (events t) (log_file l) /\
    Forall (fun e => ev_request_id e = rid) (events t).

(** While every call concerns the one request whose trail is open, that
    trail is the whole log. *)
Definition trail_is_log (rid : string) (l : Logger) : Prop :=
  exists t, _trails l !! rid = Some t /\ events t = log_file l.

End AuditLogger.

(** ** Audit entries and logs (src/backend/agentic/src/models/audit.py) *)

Module AuditModels.

Inductive AuditEventType :=
| REQUEST_RECEIVED | REQUEST_VALIDATED | REQUEST_REJECTED
| POLICY_CHECK | POLICY_VIOLATION | PROVIDER_VALIDATION | MODEL_VALIDATION
| BUDGET_CHECK | BUDGET_CHECKED | BUDGET_EXHAUSTED | BUDGET_EXCEEDED
| BUDGET_ALERT
| RISK_ASSESSMENT | RISK_ASSESSED | FRAUD_DETECTED | ANOMALY_DETECTED
| AGENT_DECISION | DECISION_MADE | AGENT_ESCALATION
| PAYMENT_RESERVED | PAYMENT_APPROVED | PAYMENT_EXECUTED | PAYMENT_COMPLETED
| PAYMENT_FAILED | PAYMENT_REFUNDED
| API_CALL_STARTED | API_CALL_SUCCESS | API_CALL_COMPLETED | API_CALL_FAILED
| EV_ERROR | SYSTEM_ERROR | CONFIGURATION_CHANGED.

Definition value (t : AuditEventType) : string :=
  match t with
  | REQUEST_RECEIVED => "request_received"
  | REQUEST_VALIDATED => "request_validated"
  | REQUEST_REJECTED => "request_rejected"
  | POLICY_CHECK => "policy_check"
  | POLICY_VIOLATION => "policy_violation"
  | PROVIDER_VALIDATION => "provider_validation"
  | MODEL_VALIDATION => "model_validation"
  | BUDGET_CHECK => "budget_check"
  | BUDGET_CHECKED => "budget_checked"
  | BUDGET_EXHAUSTED => "budget_exhausted"
  | BUDGET_EXCEEDED => "budget_exceeded"
  | BUDGET_ALERT => "budget_alert"
  | RISK_ASSESSMENT => "risk_assessment"
  | RISK_ASSESSED => "risk_assessed"
  | FRAUD_DETECTED => "fraud_detected"
  | ANOMALY_DETECTED => "anomaly_detected"
  | AGENT_DECISION => "agent_decision"
  | DECISION_MADE => "decision_made"
  | AGENT_ESCALATION => "agent_escalation"
  | PAYMENT_RESERVED => "payment_reserved"
  | PAYMENT_APPROVED => "payment_approved"
  | PAYMENT_EXECUTED => "payment_executed"
  | PAYMENT_COMPLETED => "payment_completed"
  | PAYMENT_FAILED => "payment_failed"
  | PAYMENT_REFUNDED => "payment_refunded"
  | API_CALL_STARTED => "api_call_started"
  | API_CALL_SUCCESS => "api_call_success"
  | API_CALL_COMPLETED => "api_call_completed"
  | API_CALL_FAILED => "api_call_failed"
  | EV_ERROR => "error"
  | SYSTEM_ERROR => "system_error"
  | CONFIGURATION_CHANGED => "configuration_changed"
  end.

Record AuditEntry := mkEntry
  { log_id : string;
    request_id : option string;
    user_id : option string;
    project_id : option string;
    agent_id : option string;
    event_type : AuditEventType;
    event_details : dict;
    context_snapshot : dict;
    result : string;
    error : option string;
    timestamp : datetime;
    previous_hash : option string;
    entry_hash : option string }.

Definition set_entry_hash (e : AuditEntry) (h : option string) : AuditEntry :=
  mkEntry (log_id e) (request_id e) (user_id e) (project_id e) (agent_id e)
          (event_type e) (event_details e) (context_snapshot e) (result e)
          (error e) (timestamp e) (previous_hash e) h.

Definition set_previous_hash (e : AuditEntry) (h : option string) : AuditEntry :=
  mkEntry (log_id e) (request_id e) (user_id e) (project_id e) (agent_id e)
          (event_type e) (event_details e) (context_snapshot e) (result e)
          (error e) (timestamp e) h (entry_hash e).

Record AuditLog := mkLog
  { audit_id : string;
    lg_request_id : option string;
    lg_user_id : option string;
    lg_project_id : option string;
    entries : list AuditEntry;
    created_at : datetime;
    updated_at : datetime }.

Definition set_entries (l : AuditLog) (es : list AuditEntry) : AuditLog :=
  mkLog (audit_id l) (lg_request_id l) (lg_user_id l) (lg_project_id l) es
        (created_at l) (updated_at l).

Section Hashing.
Context {ft : FloatText}.

(** The text [AuditEntry.calculate_hash] digests. *)
Definition hashed_text (e : AuditEntry) : string :=
  let data : dict :=
    [ ("log_id", JStr (log_id e));
      ("request_id", of_ostr (request_id e));
      ("event_type", JStr (value (event_type e)));
      ("timestamp", JStr (isoformat (timestamp e)));
      ("event_details", JStr (dumps true (JDict (event_details e))));
      ("result", JStr (result e));
      ("previous_hash",
       JStr (if truthy_ostr (previous_hash e)
             then default "" (previous_hash e) else "")) ] in
  dumps true (JDict data).

(** [AuditEntry.calculate_hash]: stores the digest in the entry and returns
    it. *)
Definition calculate_hash (e : AuditEntry) : string * AuditEntry :=
  let h := SHA256.hexdigest (hashed_text e) in
  (h, set_entry_hash e (Some h)).

(** [AuditLog.add_entry]; [now] is [datetime.utcnow()]. *)
Definition add_entry (now : datetime) (l : AuditLog) (entry : AuditEntry)
  : AuditLog :=
  let entry :=
    match last (entries l) with
    | Some prev => set_previous_hash entry (entry_hash prev)
    | None => entry
    end in
  let entry := snd (calculate_hash entry) in
  mkLog (audit_id l) (lg_request_id l) (lg_user_id l) (lg_project_id l)
        (entries l ++ [entry])%list (created_at l) now.

(** The loop of [AuditLog.verify_integrity]: [done] are the entries already
    visited, newest first, as [calculate_hash] left them; [todo] the rest.
    It returns the verdict and the entries as the loop leaves them. *)
Fixpoint verify_loop (done todo : list AuditEntry) : bool * list AuditEntry :=
  match todo with
  | [] => (true, rev done)
  | entry :: rest =>
      let stored_hash := entry_hash entry in
      let (calculated_hash, entry) := calculate_hash entry in
      if negb (ostr_eqb stored_hash (Some calculated_hash)) then
        (false, (rev done ++ entry :: rest)%list)
      else
        match done with
        | prev :: _ =>
            if negb (ostr_eqb (previous_hash entry) (entry_hash prev)) then
              (false, (rev done ++ entry :: rest)%list)
            else verify_loop (entry :: done) rest
        | [] => verify_loop (entry :: done) rest
        end
  end.

(** [AuditLog.verify_integrity]: the verdict, and the log as the call leaves
    it. *)
Definition verify_integrity (l : AuditLog) : bool * AuditLog :=
  let (ok, es) := verify_loop [] (entries l) in
  (ok, set_entries l es).

End Hashing.

(** Overwriting one field of the [i]-th entry of a log. *)
Definition set_user_id (e : AuditEntry) (v : option string) : AuditEntry :=
  mkEntry (log_id e) (request_id e) v (project_id e) (agent_id e)
          (event_type e) (event_details e) (context_snapshot e) (result e)
          (error e) (timestamp e) (previous_hash e) (entry_hash e).
Definition set_project_id (e : AuditEntry) (v : option string) : AuditEntry :=
  mkEntry (log_id e) (request_id e) (user_id e) v (agent_id e)
          (event_type e) (event_details e) (context_snapshot e) (result e)
          (error e) (timestamp e) (previous_hash e) (entry_hash e).
Definition set_agent_id (e : AuditEntry) (v : option string) : AuditEntry :=
  mkEntry (log_id e) (request_id e) (user_id e) (project_id e) v
          (event_type e) (event_details e) (context_snapshot e) (result e)
          (error e) (timestamp e) (previous_hash e) (entry_hash e).
Definition set_event_details (e : AuditEntry) (v : dict) : AuditEntry :=
  mkEntry (log_id e) (request_id e) (user_id e) (project_id e) (agent_id e)
          (event_type e) v (context_snapshot e) (result e)
          (error e) (timestamp e) (previous_hash e) (entry_hash e).
Definition set_context_snapshot (e : AuditEntry) (v : dict) : AuditEntry :=
  mkEntry (log_id e) (request_id e) (user_id e) (project_id e) (agent_id e)
          (event_type e) (event_details e) v (result e)
          (error e) (timestamp e) (previous_hash e) (entry_hash e).
Definition set_error (e : AuditEntry) (v : option string) : AuditEntry :=
  mkEntry (log_id e) (request_id e) (user_id e) (project_id e) (agent_id e)
          (event_type e) (event_details e) (context_snapshot e) (result e)
          v (timestamp e) (previous_hash e) (entry_hash e).

Definition mutate (i : nat) (f : AuditEntry -> AuditEntry) (l : AuditLog)
  : AuditLog :=
  set_entries l (alter f i (entries l)).

(** Two entries that agree on all that verification reads: the digested
    text, the stored hash and the link. *)
Definition same_hashed {ft : FloatText} (e e' : AuditEntry) : Prop :=
  hashed_text e = hashed_text e' /\
  entry_hash e = entry_hash e' /\
  previous_hash e = previous_hash e'.

End AuditModels.

(** ** Decision Engine (decision_engine/decision_engine.py) *)

Module DecisionEngine.

Import AuditLogger.

Record ValidationResult := mkValidation
  { valid : bool; v_error : option string }.

Record ProviderModelValidation := mkPMV
  { pm_valid : bool;
    reason : option string;
    rejection_type : option string }.

(** [_validate_request_structure]. The required fields are read with
    [getattr(request, field, None)]; [request.estimated_tokens] is a plain
    attribute access, and what it raises is caught with the rest. *)
Definition _validate_request_structure (request : APIRequest)
  : ValidationResult :=
  let required_fields :=
    [ "request_id"; "user_id"; "project_id";
      "api_provider"; "model_name"; "endpoint" ] in
  match List.find
          (fun field =>
             negb (Obj.truthy (Obj.getattr (attributes request) field Obj.VNone)))
          required_fields with
  | Some field =>
      mkValidation false (Some ("Missing required field: " ++ field))
  | None =>
      let estimated_tokens :=
        Obj.attribute "APIRequest" (attributes request) "estimated_tokens" in
      let checked :=
        Py.bind estimated_tokens (fun tokens =>
        Py.bind
          (if Obj.truthy tokens then
             Py.bind estimated_tokens (fun tokens =>
             Obj.value_vs "<" Qltb tokens "int" 0)
           else Ok false) (fun negative =>
        if negative then
          Ok (mkValidation false
                (Some "Invalid token estimate: must be positive"))
        else
        Py.bind estimated_tokens (fun tokens =>
        Py.bind
          (if Obj.truthy tokens then
             Py.bind estimated_tokens (fun tokens =>
             Obj.value_vs ">" Qgtb tokens "int" 1000000)
           else Ok false) (fun too_many =>
        if too_many then
          Ok (mkValidation false
                (Some "Invalid token estimate: exceeds maximum (1M tokens)"))
        else Ok (mkValidation true None))))) in
      match checked with
      | Ok validation => validation
      | Raise e => mkValidation false (Some ("Validation error: " ++ str_exn e))
      end
  end.

(** [_validate_provider_model]. *)
Definition _validate_provider_model (request : APIRequest)
    (user_policy : option UserPolicy) : ProviderModelValidation :=
  let allowed_providers :=
    match user_policy with Some p => allowed_providers p | None => [] end in
  if negb (truthy_list allowed_providers) then
    mkPMV false (Some "No providers configured for this project")
          (Some "NO_PROVIDERS_CONFIGURED")
  else if negb (in_strs (api_provider request) allowed_providers) then
    mkPMV false
      (Some ("Provider '" ++ api_provider request
             ++ "' not in allowed list: " ++ repr_strs allowed_providers))
      (Some "UNAUTHORIZED_PROVIDER")
  else
    let allowed_models :=
      match user_policy with
      | Some p => default [] (allowed_models p !! api_provider request)
      | None => []
      end in
    if negb (truthy_list allowed_models) then
      mkPMV false
        (Some ("No models configured for provider '"
               ++ api_provider request ++ "'"))
        (Some "NO_MODELS_CONFIGURED")
    else if negb (in_strs (model_name request) allowed_models) then
      mkPMV false
        (Some ("Model '" ++ model_name request
               ++ "' not in allowed list for '" ++ api_provider request
               ++ "': " ++ repr_strs allowed_models))
        (Some "UNAUTHORIZED_MODEL")
    else mkPMV true None None.

(** What the engine reads of the budget check, of the compliance check and
    of the risk assessment it is handed. *)
Record BudgetCheckView := mkBudgetView
  { sufficient : bool; bc_available_balance : option Q }.

Record PolicyCheckView := mkPolicyView
  { pc_compliant : bool;
    checks_performed : option (list string);
    pc_violations : list string;
    pc_dict : dict }.

Record RiskView := mkRiskView
  { rv_risk_score : Q; rv_risk_factors : json; rv_risk_level : string }.

Record RequestContext := mkRequestContext
  { user_context : UserContext;
    policies : SystemPolicy * option UserPolicy;
    cost_estimate : Q;
    budget_check : BudgetCheckView;
    policy_check : PolicyCheckView;
    risk_assessment : RiskView;
    provider_model_check : ProviderModelValidation }.

(** What the classes the engine instantiates declare: the attributes their
    [__init__] sets and their methods (policies/policy_manager.py and
    risk/risk_detector.py under src/agentic). *)
Definition PolicyManager_declared : list string :=
  [ "cache"; "load_policy"; "check_compliance"; "_validate_provider";
    "_validate_model"; "_validate_per_request_limit";
    "_validate_time_restrictions"; "get_allowed_providers";
    "get_allowed_models"; "clear_cache" ].

Definition RiskDetector_declared : list string :=
  [ "config"; "assess_risk"; "_fetch_baseline"; "_check_cost_anomaly";
    "_check_rate_anomaly"; "_check_unusual_provider"; "_check_unusual_model";
    "_check_unusual_time"; "_check_new_agent"; "_check_repeated_rejections";
    "_check_budget_exhaustion" ].

(** What lies outside the engine: the backend's answer to
    [UserContext.fetch_from_backend], what each call of a collaborator would
    answer if the engine got as far as making it (each returns or raises),
    and what the audit logger draws for the [n]-th record it writes. *)
Record Services := mkServices
  { fetch_user_context : string -> string -> Py.result UserContext;
    load_system_policy : Py.result SystemPolicy;
    load_user_policy : string -> string -> Py.result (option UserPolicy);
    estimate_cost : string -> string -> Obj.value -> Py.result Q;
    check_sufficient_budget : string -> string -> Q -> Py.result BudgetCheckView;
    check_compliance :
      APIRequest -> option UserPolicy -> SystemPolicy -> Py.result PolicyCheckView;
    analyze_request : APIRequest -> UserContext -> Py.result RiskView;
    flash_evaluate : APIRequest -> RequestContext -> Py.result Decision;
    pro_evaluate : APIRequest -> RequestContext -> Py.result Decision;
    uuid_at : nat -> string;
    utcnow_at : nat -> datetime }.

Section Pipeline.
Context {ft : FloatText}.
Variable svc : Services.

Definition next_uuid (l : Logger) : string := uuid_at svc (length (log_file l)).
Definition next_now (l : Logger) : datetime := utcnow_at svc (length (log_file l)).

(** [_load_policies]: [self.policy_manager.load_system_policy] and
    [self.policy_manager.load_user_policy] are looked up on the
    [PolicyManager] instance, each before it is called. (The class of
    src/backend declares both as coroutines; the engine does not await
    them.) *)
Definition _load_policies (user_id project_id : string)
  : Py.result (SystemPolicy * option UserPolicy) :=
  Py.bind (Obj.method "PolicyManager" PolicyManager_declared
                      "load_system_policy") (fun _ =>
  Py.bind (load_system_policy svc) (fun system_policy =>
  Py.bind (Obj.method "PolicyManager" PolicyManager_declared
                      "load_user_policy") (fun _ =>
  Py.bind (load_user_policy svc user_id project_id) (fun user_policy =>
  Ok (system_policy, user_policy))))).

(** A decision of the SYSTEM tier, as the engine constructs it. *)
Definition system_decision (request : APIRequest) (o : DecisionOutcome)
    (rejection_reason reasoning : string) (confidence : Q) : Decision :=
  mkDecision (request_id request) o (Some rejection_reason) reasoning
             confidence "SYSTEM" None None.

(** The [except Exception as e] clause of [process_request]. *)
Definition on_exception (request : APIRequest) (l : Logger) (e : exn)
  : Decision * Logger :=
  let l :=
    log_error l (next_uuid l) (next_now l) (request_id request)
      (user_id request) (project_id request) (str_exn e)
      [("exception_type", JStr (exn_type e))] in
  (system_decision request ERROR ("System error: " ++ str_exn e)
     "Decision engine encountered an error" 0, l).

(** [_route_and_decide]. *)
Definition _route_and_decide (request : APIRequest) (context : RequestContext)
  : Py.result Decision :=
  let cost := cost_estimate context in
  let risk_score := rv_risk_score (risk_assessment context) in
  let flash := Qltb cost 1 && Qltb risk_score 5 in
  let agent_tier := if flash then "FLASH" else "PRO" in
  Py.bind ((if flash then flash_evaluate svc else pro_evaluate svc) request context)
    (fun decision =>
       Ok (mkDecision (d_request_id decision) (outcome decision)
             (rejection_reason decision) (reasoning decision)
             (confidence decision) agent_tier (d_agent_id decision)
             (Some risk_score))).

(** [process_request]: the decision, and the audit logger as the call leaves
    it. Each [match] on a call that raised is the [except Exception] clause,
    entered with the logger as it stands at that point. *)
Definition process_request (request : APIRequest) (l : Logger)
  : Decision * Logger :=
  let validation := _validate_request_structure request in
  if negb (valid validation) then
    let msg := "Invalid request: " ++ default "None" (v_error validation) in
    let l :=
      log_error l (next_uuid l) (next_now l) (request_id request)
        (user_id request) (project_id request) msg
        [("validation_error", of_ostr (v_error validation))] in
    (system_decision request REJECTED msg "Request validation failed" 1, l)
  else
  match fetch_user_context svc (user_id request) (project_id request) with
  | Raise e => on_exception request l e
  | Ok user_context =>
  match _load_policies (user_id request) (project_id request) with
  | Raise e => on_exception request l e
  | Ok (system_policy, user_policy) =>
  let provider_model_check := _validate_provider_model request user_policy in
  if negb (pm_valid provider_model_check) then
    let l :=
      log_policy_check l (next_uuid l) (next_now l) (request_id request)
        (user_id request) (project_id request)
        ["provider_whitelist"; "model_whitelist"]
        [("validation", of_ostr (reason provider_model_check))] false in
    (mkDecision (request_id request) REJECTED (reason provider_model_check)
                "Provider or model not in user's whitelist" 1 "SYSTEM"
                None None, l)
  else
  match Obj.attribute "APIRequest" (attributes request) "estimated_tokens" with
  | Raise e => on_exception request l e
  | Ok estimated_tokens =>
  match estimate_cost svc (api_provider request) (model_name request)
                      estimated_tokens with
  | Raise e => on_exception request l e
  | Ok cost_estimate =>
  let request := set_estimated_cost request cost_estimate in
  match check_sufficient_budget svc (user_id request) (project_id request)
                                cost_estimate with
  | Raise e => on_exception request l e
  | Ok budget_check =>
  if negb (sufficient budget_check) then
    let available := default 0%Q (bc_available_balance budget_check) in
    let l :=
      log_budget_check l (next_uuid l) (next_now l) (request_id request)
        (user_id request) (project_id request) cost_estimate available false in
    (system_decision request REJECTED
       ("Insufficient budget: $" ++ fmt_f 2 available ++ " available, $"
        ++ fmt_f 2 cost_estimate ++ " required")
       "Budget check failed" 1, l)
  else
  match check_compliance svc request user_policy system_policy with
  | Raise e => on_exception request l e
  | Ok policy_check =>
  if negb (pc_compliant policy_check) then
    let l :=
      log_policy_check l (next_uuid l) (next_now l) (request_id request)
        (user_id request) (project_id request)
        (default [] (checks_performed policy_check))
        (pc_dict policy_check) false in
    match pc_violations policy_check with
    | [] => on_exception request l (Exn "IndexError" "list index out of range")
    | v :: _ =>
        (system_decision request REJECTED ("Policy violation: " ++ v)
           "Policy compliance check failed" 1, l)
    end
  else
  match Obj.method "RiskDetector" RiskDetector_declared "analyze_request" with
  | Raise e => on_exception request l e
  | Ok _ =>
  match analyze_request svc request user_context with
  | Raise e => on_exception request l e
  | Ok risk_assessment =>
  let l :=
    log_risk_assessment l (next_uuid l) (next_now l) (request_id request)
      (user_id request) (project_id request)
      (rv_risk_score risk_assessment) (rv_risk_factors risk_assessment)
      (rv_risk_level risk_assessment) in
  let request_context :=
    mkRequestContext user_context (system_policy, user_policy) cost_estimate
      budget_check policy_check risk_assessment provider_model_check in
  match _route_and_decide request request_context with
  | Raise e => on_exception request l e
  | Ok decision =>
  let l :=
    log_agent_decision l (next_uuid l) (next_now l) (request_id request)
      (user_id request) (project_id request)
      (if truthy_ostr (d_agent_id decision)
       then default "system" (d_agent_id decision) else "system")
      (agent_tier decision) (outcome_value (outcome decision))
      (reasoning decision)
      [ ("risk_score", JFloat (rv_risk_score risk_assessment));
        ("estimated_cost", JFloat cost_estimate);
        ("approval_confidence", JFloat (confidence decision)) ] in
  (decision, l)
  end end end end end end end end end.

End Pipeline.

End DecisionEngine.

(** ** Risk Detector (risk/risk_detector.py) *)

Module RiskDetector.

Inductive AnomalyType :=
| COST_SPIKE | RATE_SPIKE | UNUSUAL_PROVIDER | UNUSUAL_MODEL | UNUSUAL_TIME
| GEOGRAPHIC | NEW_AGENT | REPEATED_REJECTIONS | BUDGET_EXHAUSTION.

Record RiskFactor := mkFactor
  { factor_type : string;
    description : string;
    risk_contribution : Q;
    severity : string;
    details : dict }.

Record RiskAssessmentResult := mkAssessment
  { ra_request_id : string;
    ra_user_id : string;
    ra_project_id : string;
    risk_score : Q;
    risk_level : string;
    risk_factors : list RiskFactor;
    anomalies : list AnomalyType;
    recommended_action : string;
    ra_confidence : Q;
    baseline_used : bool }.

(** The thresholds of [RiskAssessmentResult.__post_init__]. *)
Definition level_of_score (score : Q) : string :=
  if Qleb score 2 then "very_low"
  else if Qleb score 4 then "low"
  else if Qleb score 6 then "medium"
  else if Qleb score 8 then "high"
  else "critical".

Definition action_of_score (score : Q) : string :=
  if Qleb score 2 then "approve"
  else if Qleb score 4 then "approve"
  else if Qleb score 6 then "approve"
  else if Qleb score 8 then "review"
  else "reject".

(** [RiskAssessmentResult.__post_init__]: runs once, when the object is
    constructed. *)
Definition __post_init__ (r : RiskAssessmentResult) : RiskAssessmentResult :=
  mkAssessment (ra_request_id r) (ra_user_id r) (ra_project_id r)
    (risk_score r) (level_of_score (risk_score r)) (risk_factors r)
    (anomalies r) (action_of_score (risk_score r)) (ra_confidence r)
    (baseline_used r).

(** [RiskAssessmentResult(request_id=..., user_id=..., project_id=...,
    risk_score=..., risk_level=...)]: the dataclass has no default for
    [risk_score] and [risk_level]; a call that leaves one out raises. *)
Definition new_assessment (request_id user_id project_id : string)
    (risk_score : option Q) (risk_level : option string)
  : Py.result RiskAssessmentResult :=
  match risk_score, risk_level with
  | Some s, Some lv =>
      Ok (__post_init__
            (mkAssessment request_id user_id project_id s lv [] [] "approve"
                          (9 # 10) false))
  | None, None =>
      Raise (Exn "TypeError"
        "RiskAssessmentResult.__init__() missing 2 required positional arguments: 'risk_score' and 'risk_level'")
  | None, Some _ =>
      Raise (Exn "TypeError"
        "RiskAssessmentResult.__init__() missing 1 required positional argument: 'risk_score'")
  | Some _, None =>
      Raise (Exn "TypeError"
        "RiskAssessmentResult.__init__() missing 1 required positional argument: 'risk_level'")
  end.

(** [result.risk_factors.append(f); risk_score += f.risk_contribution;
    result.anomalies.append(a)]. *)
Definition note (acc : RiskAssessmentResult * Q) (f : option RiskFactor)
    (a : AnomalyType) : RiskAssessmentResult * Q :=
  match f with
  | None => acc
  | Some factor =>
      let (r, score) := acc in
      (mkAssessment (ra_request_id r) (ra_user_id r) (ra_project_id r)
         (risk_score r) (risk_level r) (risk_factors r ++ [factor])
         (anomalies r ++ [a]) (recommended_action r) (ra_confidence r)
         (baseline_used r),
       (score + risk_contribution factor)%Q)
  end.

(** [result.risk_score = x]: a plain attribute store. *)
Definition set_risk_score (r : RiskAssessmentResult) (x : Q)
  : RiskAssessmentResult :=
  mkAssessment (ra_request_id r) (ra_user_id r) (ra_project_id r) x
    (risk_level r) (risk_factors r) (anomalies r) (recommended_action r)
    (ra_confidence r) (baseline_used r).

Definition set_baseline_used (r : RiskAssessmentResult) (b : bool)
  : RiskAssessmentResult :=
  mkAssessment (ra_request_id r) (ra_user_id r) (ra_project_id r)
    (risk_score r) (risk_level r) (risk_factors r) (anomalies r)
    (recommended_action r) (ra_confidence r) b.

(** [_check_cost_anomaly]. *)
Definition _check_cost_anomaly (request : APIRequest)
    (baseline : option UserBaseline) : option RiskFactor :=
  match baseline with
  | Some b =>
      if Qeqb (average_request_cost b) 0 then
        if Qgtb (estimated_cost request) 10 then
          Some (mkFactor "high_cost" "High cost request without baseline" 2
                         "medium" [("cost", JFloat (estimated_cost request))])
        else None
      else
        let deviation :=
          ((estimated_cost request - average_request_cost b)
           / average_request_cost b)%Q in
        let details :=
          [ ("request_cost", JFloat (estimated_cost request));
            ("average_cost", JFloat (average_request_cost b));
            ("deviation", JFloat deviation) ] in
        if Qgtb deviation 3 then
          Some (mkFactor "cost_spike"
                  ("Cost is " ++ fmt_f 1 deviation ++ "x higher than user average")
                  (Qmin 3 deviation) "high" details)
        else if Qgtb deviation 2 then
          Some (mkFactor "cost_spike"
                  ("Cost is " ++ fmt_f 1 deviation ++ "x higher than user average")
                  (3 # 2) "medium" details)
        else None
  | None =>
      if Qgtb (estimated_cost request) 10 then
        Some (mkFactor "high_cost" "High cost request without baseline" 2
                       "medium" [("cost", JFloat (estimated_cost request))])
      else None
  end.

(** [_check_rate_anomaly]. *)
Definition _check_rate_anomaly (user_context : UserContext)
    (baseline : option UserBaseline) : option RiskFactor :=
  if total_requests_today user_context >? 100 then
    let spike :=
      match baseline with
      | None => true
      | Some b =>
          Qgtb (inject_Z (total_requests_today user_context))
               (average_requests_per_day b * 3)%Q
      end in
    if spike then
      Some (mkFactor "rate_spike" "Unusual spike in request volume" 2 "high"
              [ ("requests_today", JInt (total_requests_today user_context));
                ("average_per_day",
                 match baseline with
                 | Some b => JFloat (average_requests_per_day b)
                 | None => JInt 0
                 end) ])
    else None
  else None.

(** [_check_unusual_provider]. *)
Definition _check_unusual_provider (request : APIRequest)
    (baseline : option UserBaseline) : option RiskFactor :=
  match baseline with
  | None => None
  | Some b =>
      if negb (truthy_list (typical_providers b)) then None
      else if negb (in_strs (api_provider request) (typical_providers b)) then
        Some (mkFactor "unusual_provider"
                ("Provider '" ++ api_provider request
                 ++ "' not in user's typical usage")
                1 "low"
                [ ("requested_provider", JStr (api_provider request));
                  ("typical_providers", of_strs (typical_providers b)) ])
      else None
  end.

(** [_check_unusual_model]. *)
Definition _check_unusual_model (request : APIRequest)
    (baseline : option UserBaseline) : option RiskFactor :=
  match baseline with
  | None => None
  | Some b =>
      if negb (truthy_list (typical_models b)) then None
      else
        let model_key := api_provider request ++ "/" ++ model_name request in
        if negb (in_strs model_key (typical_models b)) then
          Some (mkFactor "unusual_model"
                  ("Model '" ++ model_key ++ "' not in user's typical usage")
                  (1 # 2) "low"
                  [ ("requested_model", JStr model_key);
                    ("typical_models", of_strs (typical_models b)) ])
        else None
  end.

(** [_check_unusual_time]; [now] is [datetime.utcnow()]. *)
Definition _check_unusual_time (now : datetime)
    (baseline : option UserBaseline) : option RiskFactor :=
  match baseline with
  | None => None
  | Some b =>
      if negb (truthy_list (typical_hours b)) then None
      else
        let current_hour := hour now in
        if negb (in_ints current_hour (typical_hours b)) then
          Some (mkFactor "unusual_time"
                  ("Request at unusual hour (" ++ str_int current_hour
                   ++ ":00) for this user")
                  (1 # 2) "low"
                  [ ("current_hour", JInt current_hour);
                    ("typical_hours", of_ints (typical_hours b)) ])
        else None
  end.

(** [_check_new_agent]. *)
Definition _check_new_agent (request : APIRequest) (user_context : UserContext)
  : option RiskFactor :=
  match agent_id request with
  | Some a =>
      if truthy_str a && negb (in_strs a (agents user_context)) then
        Some (mkFactor "new_agent" ("Request from new agent: " ++ a) (3 # 2)
                "medium"
                [ ("agent_id", JStr a);
                  ("known_agents", of_strs (agents user_context)) ])
      else None
  | None => None
  end.

(** [_check_repeated_rejections]. *)
Definition _check_repeated_rejections (user_context : UserContext)
  : option RiskFactor :=
  if recent_rejections user_context >=? 5 then
    Some (mkFactor "repeated_rejections" "Multiple recent rejections detected"
            2 "high"
            [("recent_rejections", JInt (recent_rejections user_context))])
  else if recent_rejections user_context >=? 3 then
    Some (mkFactor "repeated_rejections" "Several recent rejections detected"
            1 "medium"
            [("recent_rejections", JInt (recent_rejections user_context))])
  else None.

(** [_check_budget_exhaustion]. *)
Definition _check_budget_exhaustion (user_context : UserContext)
  : option RiskFactor :=
  match policy user_context with
  | None => None
  | Some p =>
      let remaining_daily := get_remaining_daily_budget user_context p in
      let daily_limit := daily_budget p in
      if Qgtb daily_limit 0 then
        let usage_percent :=
          ((daily_limit - remaining_daily) / daily_limit * 100)%Q in
        if Qgtb usage_percent 90 && (total_requests_today user_context >? 50)
        then
          Some (mkFactor "budget_exhaustion"
                  ("Rapid budget consumption (" ++ fmt_f 0 usage_percent
                   ++ "% used)")
                  (3 # 2) "medium"
                  [ ("usage_percent", JFloat usage_percent);
                    ("requests_today",
                     JInt (total_requests_today user_context)) ])
        else None
      else None
  end.

(** [_fetch_baseline]: the backend's reply, [None] when the fetch raises. *)
Definition _fetch_baseline (fetched : Py.result UserBaseline)
  : option UserBaseline :=
  match fetched with Ok b => Some b | Raise _ => None end.

(** [assess_risk]: it constructs the result from the three identifiers
    alone, then fetches the baseline, runs the eight checks and stores the
    capped score. [fetched] is the backend's answer to the baseline fetch,
    [now] the clock of the time check. *)
Definition assess_risk (request : APIRequest) (user_context : UserContext)
    (fetched : Py.result UserBaseline) (now : datetime)
  : Py.result RiskAssessmentResult :=
  Py.bind
    (new_assessment (request_id request) (user_id request)
                    (project_id request) None None)
    (fun result =>
       let baseline := _fetch_baseline fetched in
       let result :=
         set_baseline_used result
           (match baseline with Some _ => true | None => false end) in
       let acc := (result, 1%Q) in
       let acc := note acc (_check_cost_anomaly request baseline) COST_SPIKE in
       let acc := note acc (_check_rate_anomaly user_context baseline) RATE_SPIKE in
       let acc :=
         note acc (_check_unusual_provider request baseline) UNUSUAL_PROVIDER in
       let acc := note acc (_check_unusual_model request baseline) UNUSUAL_MODEL in
       let acc := note acc (_check_unusual_time now baseline) UNUSUAL_TIME in
       let acc := note acc (_check_new_agent request user_context) NEW_AGENT in
       let acc :=
         note acc (_check_repeated_rejections user_context) REPEATED_REJECTIONS in
       let acc :=
         note acc (_check_budget_exhaustion user_context) BUDGET_EXHAUSTION in
       let (result, risk_score) := acc in
       Ok (set_risk_score result (Qmin risk_score 10))).

End RiskDetector.

(** ** Budget Tracker (budgets/budget_tracker.py) *)

Module BudgetTracker.

Record BudgetStatus := mkStatus
  { bs_user_id : string;
    bs_project_id : string;
    total_balance : Q;
    available_balance : Q;
    reserved_amount : Q;
    spent_today : Q;
    spent_this_month : Q;
    spent_total : Q;
    bs_daily_limit : option Q;
    bs_monthly_limit : option Q;
    bs_per_request_limit : option Q;
    daily_limit_reached : bool;
    monthly_limit_reached : bool;
    low_balance_warning : bool;
    bs_checked_at : datetime }.

(** [BudgetStatus.__post_init__]. *)
Definition status_post_init (s : BudgetStatus) : BudgetStatus :=
  mkStatus (bs_user_id s) (bs_project_id s) (total_balance s)
    (available_balance s) (reserved_amount s) (spent_today s)
    (spent_this_month s) (spent_total s) (bs_daily_limit s)
    (bs_monthly_limit s) (bs_per_request_limit s)
    (if truthy_oQ (bs_daily_limit s)
     then Qgeb (spent_today s) (default 0%Q (bs_daily_limit s))
     else daily_limit_reached s)
    (if truthy_oQ (bs_monthly_limit s)
     then Qgeb (spent_this_month s) (default 0%Q (bs_monthly_limit s))
     else monthly_limit_reached s)
    (if Qgtb (total_balance s) 0
     then Qgeb ((total_balance s - available_balance s) / total_balance s)%Q
               (8 # 10)
     else low_balance_warning s)
    (bs_checked_at s).

(** models/budget.py, [BudgetPolicy], the class of the [policy] argument of
    [check_against_policy] ([user_id], [project_id], [created_at] and
    [updated_at] carry the prefix [bp_]). *)
Record BudgetPolicy := mkBudgetPolicy
  { bp_user_id : string;
    bp_project_id : string;
    per_request_max : Q;
    daily_limit : Q;
    monthly_limit : Q;
    alert_threshold_low : Q;
    alert_threshold_critical : Q;
    auto_reload_enabled : bool;
    auto_reload_threshold : Q;
    auto_reload_amount : Q;
    bp_created_at : datetime;
    bp_updated_at : datetime }.

(** The attributes of a [BudgetPolicy] instance. *)
Definition policy_attributes (p : BudgetPolicy) : Obj.instance :=
  [ ("user_id", Obj.VStr (bp_user_id p));
    ("project_id", Obj.VStr (bp_project_id p));
    ("per_request_max", Obj.VFloat (per_request_max p));
    ("daily_limit", Obj.VFloat (daily_limit p));
    ("monthly_limit", Obj.VFloat (monthly_limit p));
    ("alert_threshold_low", Obj.VFloat (alert_threshold_low p));
    ("alert_threshold_critical", Obj.VFloat (alert_threshold_critical p));
    ("auto_reload_enabled", Obj.VBool (auto_reload_enabled p));
    ("auto_reload_threshold", Obj.VFloat (auto_reload_threshold p));
    ("auto_reload_amount", Obj.VFloat (auto_reload_amount p));
    ("created_at", Obj.VDatetime (bp_created_at p));
    ("updated_at", Obj.VDatetime (bp_updated_at p)) ].

(** models/budget.py, [BudgetCheck], which budget_tracker.py imports under
    the name [BudgetCheckModel]: its fields, each with its default if it has
    one; [now] is the [datetime.utcnow()] of [checked_at]. *)
Definition BudgetCheckModel_fields (now : datetime)
  : list (string * option Obj.value) :=
  [ ("sufficient", None);
    ("available", None);
    ("required", None);
    ("daily_limit", None);
    ("daily_spent", None);
    ("daily_remaining", Some (Obj.VFloat 0));
    ("monthly_limit", Some (Obj.VFloat 0));
    ("monthly_spent", Some (Obj.VFloat 0));
    ("monthly_remaining", Some (Obj.VFloat 0));
    ("status", Some (Obj.VEnum "BudgetStatus" "AVAILABLE"));
    ("is_low_balance", Some (Obj.VBool false));
    ("is_critical_balance", Some (Obj.VBool false));
    ("checked_at", Some (Obj.VDatetime now)) ].

(** [BudgetCheck.__post_init__] of models/budget.py. *)
Definition BudgetCheckModel_post_init (c : Obj.instance)
  : Py.result Obj.instance :=
  let field name := Obj.getattr c name Obj.VNone in
  Py.bind (Obj.minus (field "daily_limit") (field "daily_spent")) (fun d =>
  let daily_remaining := Qmax 0 d in
  let c := Obj.set_attribute c "daily_remaining" (Obj.VFloat daily_remaining) in
  Py.bind (Obj.minus (field "monthly_limit") (field "monthly_spent")) (fun m =>
  let monthly_remaining := Qmax 0 m in
  let c :=
    Obj.set_attribute c "monthly_remaining" (Obj.VFloat monthly_remaining) in
  let number name := default 0%Q (Obj.as_number (field name)) in
  let daily_pct :=
    if Qgtb (number "daily_limit") 0
    then (daily_remaining / number "daily_limit" * 100)%Q else 0%Q in
  let monthly_pct :=
    if Qgtb (number "monthly_limit") 0
    then (monthly_remaining / number "monthly_limit" * 100)%Q else 0%Q in
  let min_pct := Qmin daily_pct monthly_pct in
  let c :=
    if Qltb min_pct 5 then
      Obj.set_attribute
        (Obj.set_attribute c "is_critical_balance" (Obj.VBool true))
        "status" (Obj.VEnum "BudgetStatus" "CRITICAL")
    else if Qltb min_pct 20 then
      Obj.set_attribute
        (Obj.set_attribute c "is_low_balance" (Obj.VBool true))
        "status" (Obj.VEnum "BudgetStatus" "LOW")
    else c in
  let c :=
    if Qgeb (number "daily_spent") (number "daily_limit")
       || Qgeb (number "monthly_spent") (number "monthly_limit")
    then Obj.set_attribute c "status" (Obj.VEnum "BudgetStatus" "EXHAUSTED")
    else c in
  Ok c)).

(** [BudgetCheckModel(k1=v1, ...)]: the generated [__init__], then
    [__post_init__]. *)
Definition BudgetCheckModel (now : datetime) (kwargs : Obj.instance)
  : Py.result Obj.instance :=
  Py.bind (Obj.new "BudgetCheck" (BudgetCheckModel_fields now) kwargs)
          BudgetCheckModel_post_init.

(** The decoded body of the backend's status reply: a key is [None] when the
    body has no such key. *)
Record StatusReply := mkStatusReply
  { r_total_balance : option Q;
    r_available_balance : option Q;
    r_reserved_amount : option Q;
    r_spent_today : option Q;
    r_spent_this_month : option Q;
    r_spent_total : option Q;
    r_daily_limit : option Q;
    r_monthly_limit : option Q;
    r_per_request_limit : option Q }.

(** The tracker: its status cache, keyed by [user_id:project_id]. *)
Record Tracker := mkTracker
  { _cache : gmap string (BudgetStatus * datetime) }.

Definition _cache_ttl : Z := 30.

Definition cache_key (user_id project_id : string) : string :=
  user_id ++ ":" ++ project_id.

(** [get_budget_status]; [reply] is what the backend answers if asked,
    [now] the clock at the cache test, [later] the clock once the reply is
    in. *)
Definition get_budget_status (t : Tracker) (now later : datetime)
    (reply : Py.result StatusReply) (user_id project_id : string)
    (use_cache : bool) : Py.result BudgetStatus * Tracker :=
  let key := cache_key user_id project_id in
  let fetch :=
    match reply with
    | Raise e => (Raise e, t)
    | Ok data =>
        let status :=
          status_post_init
            (mkStatus user_id project_id
               (default 0%Q (r_total_balance data))
               (default 0%Q (r_available_balance data))
               (default 0%Q (r_reserved_amount data))
               (default 0%Q (r_spent_today data))
               (default 0%Q (r_spent_this_month data))
               (default 0%Q (r_spent_total data))
               (r_daily_limit data) (r_monthly_limit data)
               (r_per_request_limit data) false false false later) in
        (Ok status, mkTracker (<[key := (status, later)]> (_cache t)))
    end in
  match (if use_cache then _cache t !! key else None) with
  | Some (cached_status, cached_at) =>
      if delta_seconds now cached_at <? _cache_ttl then (Ok cached_status, t)
      else fetch
  | None => fetch
  end.

(** [check_against_policy]; [at_return] is the clock when the result is
    built. *)
Definition check_against_policy (t : Tracker) (now later at_return : datetime)
    (reply : Py.result StatusReply) (user_id project_id : string)
    (requested_amount : Q) (policy : BudgetPolicy)
  : Py.result Obj.instance * Tracker :=
  let (fetched, t) :=
    get_budget_status t now later reply user_id project_id true in
  let attempt :=
    Py.bind fetched (fun status =>
    let violations : list string := [] in
    let violations :=
      if Qgtb requested_amount (available_balance status) then
        push violations
        ("Insufficient balance: need $" ++ fmt_f 4 requested_amount
         ++ ", have $" ++ fmt_f 4 (available_balance status))
      else violations in
    Py.bind (Obj.attribute "BudgetPolicy" (policy_attributes policy)
                           "per_request_limit") (fun per_request_limit =>
    Py.bind
      (if Obj.truthy per_request_limit
       then Obj.number_vs ">" Qgtb "float" requested_amount per_request_limit
       else Ok false) (fun exceeds =>
    let violations :=
      if exceeds then
        push violations
        ("Exceeds per-request limit: $" ++ fmt_f 4 requested_amount
         ++ " > $"
         ++ fmt_f 4 (default 0%Q (Obj.as_number per_request_limit)))
      else violations in
    let violations :=
      if truthy_Q (daily_limit policy) then
        let projected_daily := (spent_today status + requested_amount)%Q in
        if Qgtb projected_daily (daily_limit policy) then
          push violations
          ("Would exceed daily limit: $" ++ fmt_f 4 projected_daily
           ++ " > $" ++ fmt_f 4 (daily_limit policy))
        else violations
      else violations in
    let violations :=
      if truthy_Q (monthly_limit policy) then
        let projected_monthly :=
          (spent_this_month status + requested_amount)%Q in
        if Qgtb projected_monthly (monthly_limit policy) then
          push violations
          ("Would exceed monthly limit: $" ++ fmt_f 4 projected_monthly
           ++ " > $" ++ fmt_f 4 (monthly_limit policy))
        else violations
      else violations in
    BudgetCheckModel at_return
      [ ("available", Obj.VBool (Nat.eqb (length violations) 0));
        ("current_balance", Obj.VFloat (available_balance status));
        ("estimated_cost", Obj.VFloat requested_amount);
        ("remaining_budget",
         Obj.VFloat (if Nat.eqb (length violations) 0
                     then (available_balance status - requested_amount)%Q
                     else 0%Q));
        ("violations", Obj.VJson (of_strs violations));
        ("checked_at", Obj.VDatetime at_return) ]))) in
  match attempt with
  | Ok check => (Ok check, t)
  | Raise e =>
      (BudgetCheckModel at_return
         [ ("available", Obj.VBool false);
           ("current_balance", Obj.VFloat 0);
           ("estimated_cost", Obj.VFloat requested_amount);
           ("remaining_budget", Obj.VFloat 0);
           ("violations",
            Obj.VJson (of_strs ["Budget policy check error: " ++ str_exn e]));
           ("checked_at", Obj.VDatetime at_return) ], t)
  end.

(** [clear_cache]. *)
Definition clear_cache (t : Tracker) (user_id project_id : option string)
  : Tracker :=
  if truthy_ostr user_id && truthy_ostr project_id then
    let key := cache_key (default "" user_id) (default "" project_id) in
    mkTracker (delete key (_cache t))
  else if truthy_ostr user_id then
    let keys_to_remove :=
      List.filter (String.prefix (default "" user_id ++ ":"))
                  (map fst (map_to_list (_cache t))) in
    mkTracker (fold_left (fun c key => delete key c) keys_to_remove (_cache t))
  else mkTracker ∅.

(** The cached status of a pair, as [get_budget_status] looks it up. *)
Definition cached (t : Tracker) (user_id project_id : string)
  : option (BudgetStatus * datetime) :=
  _cache t !! cache_key user_id project_id.

(** An identifier that can be told apart inside a cache key: not empty, and
    without the separator. *)
Definition plain_id (s : string) : Prop :=
  s <> "" /\ has_char ":" s = false.

End BudgetTracker.

(** ** Payment Executor (payments/payment_executor.py) *)

Module PaymentExecutor.

Inductive PaymentStatus :=
| PENDING | RESERVED | COMMITTED | FAILED | REFUNDED | CANCELLED.

Record PaymentReservation := mkReservation
  { reservation_id : string;
    pr_request_id : string;
    pr_user_id : string;
    pr_project_id : string;
    pr_estimated_amount : Q;
    pr_currency : string;
    pr_status : PaymentStatus;
    reserved_at : datetime;
    tx_hash : option string;
    pr_block_number : option Z }.

Record PaymentResult := mkPaymentResult
  { payment_id : string;
    res_request_id : string;
    res_reservation_id : string;
    estimated_amount : Q;
    actual_amount : Q;
    variance_amount : Q;
    variance_percent : Q;
    currency : string;
    status : PaymentStatus;
    provider : string;
    initiated_at : datetime;
    completed_at : option datetime;
    payment_tx_hash : option string;
    block_number : option Z;
    pay_error : option string }.

(** The backend's answer to the reserve call: an HTTP error status, another
    failure, or the decoded body. *)
Inductive ReserveReply :=
| HTTPError (status_code : Z) (message : string)
| Failure (e : exn)
| Reserved (reservation_id tx_hash : option string) (block_number : option Z).

(** [reserve_payment]; [BACKEND_API_URL] is the configured base URL, [reply]
    the backend's answer if it is asked, [now] the clock when the
    reservation is built. *)
Definition reserve_payment (BACKEND_API_URL : string) (reply : ReserveReply)
    (now : datetime) (request_id user_id project_id : string)
    (estimated_amount : Q) : Py.result PaymentReservation :=
  match Config.get_endpoint BACKEND_API_URL "payments" (Some "reserve") [] with
  | Raise e => Raise (Exn "PaymentError" ("Payment error: " ++ str_exn e))
  | Ok url =>
      match reply with
      | HTTPError status_code message =>
          if status_code =? 402 then
            Raise (Exn "InsufficientFundsError"
                     ("Insufficient funds for " ++ user_id))
          else Raise (Exn "PaymentError" ("Payment failed: " ++ message))
      | Failure e => Raise (Exn "PaymentError" ("Payment error: " ++ str_exn e))
      | Reserved None _ _ =>
          Raise (Exn "PaymentError" "Payment error: 'reservation_id'")
      | Reserved (Some rid) tx block =>
          Ok (mkReservation rid request_id user_id project_id estimated_amount
                            "USDC" RESERVED now tx block)
      end
  end.

(** [commit_payment]; [reply] is the backend's answer to the commit call if
    it is asked (the [payment_id] of the decoded body, [None] when the key is
    missing), [now] and [later] the clock when the result is built. *)
Definition commit_payment (BACKEND_API_URL : string)
    (reply : Py.result (option string))
    (now later : datetime) (reservation : PaymentReservation)
    (actual_amount : Q) (provider : string) : Py.result PaymentResult :=
  let variance_amount := (pr_estimated_amount reservation - actual_amount)%Q in
  let variance_percent :=
    if Qgtb (pr_estimated_amount reservation) 0
    then (variance_amount / pr_estimated_amount reservation * 100)%Q
    else 0%Q in
  match Config.get_endpoint BACKEND_API_URL "payments" (Some "commit") [] with
  | Raise e =>
      Raise (Exn "PaymentError" ("Payment logging error: " ++ str_exn e))
  | Ok url =>
      match reply with
      | Raise e =>
          Raise (Exn "PaymentError" ("Payment logging error: " ++ str_exn e))
      | Ok None =>
          Raise (Exn "PaymentError" "Payment logging error: 'payment_id'")
      | Ok (Some pid) =>
          Ok (mkPaymentResult pid (pr_request_id reservation)
                (reservation_id reservation) (pr_estimated_amount reservation)
                actual_amount variance_amount variance_percent "USDC" COMMITTED
                provider now (Some later) (tx_hash reservation)
                (pr_block_number reservation) None)
      end
  end.

End PaymentExecutor.

(** A float text for closed examples: plain decimals with up to 17 digits
    after the point, which is what Python prints for the short decimals the
    examples use. *)
Fixpoint frac_digits (fuel : nat) (num den : Z) : string :=
  match fuel with
  | O => ""
  | S f =>
      if num =? 0 then ""
      else String (digit_char (num * 10 / den))
                  (frac_digits f ((num * 10) mod den) den)
  end.

Definition short_decimal : FloatText := fun x =>
  let n := Qnum (Qabs x) in
  let d := Z.pos (Qden x) in
  let frac := frac_digits 17 (n mod d) d in
  (if Qltb x 0 then "-" else "") ++ str_nonneg (n / d) ++ "."
  ++ (if String.eqb frac "" then "0" else frac).

(** ** The specification's wording, for comparison with the code *)

Module Spec.

(** Structural validity as the spec words it: request id, principal id,
    project id, provider, model and operation non-empty, and a token
    estimate, if the request has one, between 0 and 1 000 000. *)
Definition structurally_valid (r : APIRequest) : Prop :=
  request_id r <> "" /\ user_id r <> "" /\ project_id r <> "" /\
  api_provider r <> "" /\ model_name r <> "" /\ operation_type r <> "" /\
  (forall t, Obj.find_attribute (attributes r) "estimated_tokens"
             = Some (Obj.VJson (JInt t)) -> 0 <= t <= 1000000).

(** The projection rule as the spec words it: the amount within the
    available balance and within each limit that is present. *)
Definition permitted (available_balance spent_today spent_month amount : Q)
    (per_request_limit daily_limit monthly_limit : option Q) : Prop :=
  (amount <= available_balance)%Q /\
  (forall lim, per_request_limit = Some lim -> (amount <= lim)%Q) /\
  (forall lim, daily_limit = Some lim -> (spent_today + amount <= lim)%Q) /\
  (forall lim, monthly_limit = Some lim -> (spent_month + amount <= lim)%Q).

(** Risk category by the thresholds of the spec. *)
Definition category_of (score : Q) : string :=
  if Qle_bool score 2 then "very_low"
  else if Qle_bool score 4 then "low"
  else if Qle_bool score 6 then "medium"
  else if Qle_bool score 8 then "high"
  else "critical".

(** The cost-spike row of the spec's table: the contribution it assigns to a
    request of cost [cost] against a positive baseline mean [avg]. *)
Definition cost_spike_contribution (cost avg : Q) : option Q :=
  let deviation := ((cost - avg) / avg)%Q in
  if Qltb (3 * avg) cost then Some (Qmin 3 deviation)
  else if Qltb (2 * avg) cost then Some (3 # 2)%Q
  else None.

End Spec.

(** ** Sample data for the closed examples *)

Module Sample.

Import AuditLogger.

Definition t0 : datetime := mkDatetime 2025 1 15 10 30 0 0.
Definition t1 : datetime := mkDatetime 2025 1 15 10 30 1 250000.
Definition t2 : datetime := mkDatetime 2025 1 15 10 30 2 500000.

(** The example request of the docstring of [APIRequest], with a request
    id as the default factory draws them. *)
Definition docstring_request : APIRequest :=
  mkAPIRequest "medical_store_001" "chatbot_24_7" "req_0123456789abcdef" None
    "openai" "gpt-3.5-turbo" "chat"
    [ ("prompt", JStr "What are side effects of Ibuprofen?");
      ("max_tokens", JInt 150) ]
    (2 # 1000) None t0 RequestStatus.PENDING false false [].

Definition chat_request : APIRequest :=
  mkAPIRequest "user_001" "proj_001" "req_001" None "openai" "gpt-4" "chat"
    [] 0 None t0 RequestStatus.PENDING false false [].

Definition no_model_request : APIRequest :=
  mkAPIRequest "user_001" "proj_001" "req_002" None "openai" "" "chat"
    [] 0 None t0 RequestStatus.PENDING false false [].

(** A policy that lists nothing. *)
Definition empty_policy : UserPolicy :=
  mkUserPolicy [] ∅ [] [] 10 100 3000 None None 7 3 true.

(** A policy that lists one provider and no model for it. *)
Definition provider_only_policy : UserPolicy :=
  mkUserPolicy ["openai"] ∅ [] [] 10 100 3000 None None 7 3 true.

(** A policy with both lists. *)
Definition full_policy : UserPolicy :=
  mkUserPolicy ["openai"; "google"]
    (<["openai" := ["gpt-4"; "gpt-3.5-turbo"]]> (<["google" := ["gemini-pro"]]> ∅))
    [] [] 10 100 3000 None None 7 3 true.

Definition system_policy : SystemPolicy :=
  mkSystemPolicy [] [] [] 100 10000 365.

Definition plain_context (p : UserPolicy) : UserContext :=
  mkUserContext (Some p) [] 0 0 0.

(** A backend and collaborators that answer every call made to them: the
    context and the policy [p] are served, the later steps approve. *)
Definition services (p : UserPolicy) : DecisionEngine.Services :=
  DecisionEngine.mkServices
    (fun _ _ => Ok (plain_context p))
    (Ok system_policy)
    (fun _ _ => Ok (Some p))
    (fun _ _ _ => Ok (1 # 100)%Q)
    (fun _ _ _ => Ok (DecisionEngine.mkBudgetView true (Some 50%Q)))
    (fun _ _ _ => Ok (DecisionEngine.mkPolicyView true (Some []) [] []))
    (fun _ _ => Ok (DecisionEngine.mkRiskView 1 (JList []) "very_low"))
    (fun r _ => Ok (mkDecision (request_id r) APPROVED None "routine" (9 # 10)
                               "" (Some "flash") None))
    (fun r _ => Ok (mkDecision (request_id r) APPROVED None "reviewed" (9 # 10)
                               "" (Some "pro") None))
    (fun n => "0123456789abcdef0123456789abcdef")
    (fun n => t0).

(** Three logging calls: two requests arrive, then the first is checked. *)
Definition interleaved : list timed_call :=
  [ mkCall (RequestReceived "req_1" "user_001" "proj_001" None
                            [("provider", JStr "openai")])
           "0123456789abcdef0123456789abcdef" t0;
    mkCall (RequestReceived "req_2" "user_001" "proj_001" None
                            [("provider", JStr "google")])
           "1123456789abcdef0123456789abcdef" t1;
    mkCall (PolicyCheck "req_1" "user_001" "proj_001" ["provider_whitelist"]
                        [] true)
           "2123456789abcdef0123456789abcdef" t2 ].

(** Risk: a caller with five recent rejections and no baseline; a baseline
    whose mean request cost is 1. *)
Definition rejected_context : UserContext :=
  mkUserContext (Some full_policy) [] 0 0 5.

Definition no_baseline : Py.result UserBaseline :=
  Raise (Exn "HTTPError" "404 Client Error").

Definition unit_baseline : UserBaseline := mkUserBaseline 1 10 [] [] [].

Definition request_costing (c : Q) : APIRequest :=
  mkAPIRequest "user_001" "proj_001" "req_004" None "openai" "gpt-4" "chat"
    [] c None t0 RequestStatus.PENDING false false [].

(** Budget: a backend that reports a balance of 5 with nothing spent, and
    the policy [BudgetPolicy(user_id='user_001', project_id='proj_001')],
    whose limits are the defaults 10, 100 and 3000. *)
Definition balance_of_five : BudgetTracker.StatusReply :=
  BudgetTracker.mkStatusReply (Some 5%Q) (Some 5%Q) (Some 0%Q) (Some 0%Q)
    (Some 0%Q) (Some 0%Q) None None None.

Definition default_limits : BudgetTracker.BudgetPolicy :=
  BudgetTracker.mkBudgetPolicy "user_001" "proj_001" 10 100 3000 20 5 false
    10 100 t0 t0.

Definition empty_tracker : BudgetTracker.Tracker := BudgetTracker.mkTracker ∅.

Definition status_of_five : BudgetTracker.BudgetStatus :=
  BudgetTracker.mkStatus "user_001" "proj_001" 5 5 0 0 0 0 None None None
                         false false false t1.

(** A cache holding the status of the pair (a, b:c). *)
Definition colon_tracker : BudgetTracker.Tracker :=
  BudgetTracker.mkTracker {[ "a:b:c" := (status_of_five, t0) ]}.

(** A cache holding the status of two pairs. *)
Definition two_pair_tracker : BudgetTracker.Tracker :=
  BudgetTracker.mkTracker
    (<["alice:web" := (status_of_five, t0)]>
       {[ "bob:web" := (status_of_five, t0) ]}).

(** Payment: a reservation of 0.002 with its transaction hash. *)
Definition reservation : PaymentExecutor.PaymentReservation :=
  PaymentExecutor.mkReservation "res_1" "req_001" "user_001" "proj_001"
    (2 # 1000) "USDC" PaymentExecutor.RESERVED t0 (Some "0xabc") (Some 42).

(** An audit log of three entries, built with [add_entry]. *)
Definition entry_of (log_id : string) (t : AuditModels.AuditEventType)
    (details : dict) : AuditModels.AuditEntry :=
  AuditModels.mkEntry log_id (Some "req_001") (Some "user_001")
    (Some "proj_001") None t details [("action", JStr "step")] "success" None
    t0 None None.

Definition audit_log {ft : FloatText} : AuditModels.AuditLog :=
  AuditModels.add_entry t2
    (AuditModels.add_entry t1
       (AuditModels.add_entry t0
          (AuditModels.mkLog "audit_1" (Some "req_001") (Some "user_001")
                             (Some "proj_001") [] t0 t0)
          (entry_of "log_a" AuditModels.REQUEST_RECEIVED
                    [("provider", JStr "openai")]))
       (entry_of "log_b" AuditModels.POLICY_CHECK
                 [("compliant", JBool true)]))
    (entry_of "log_c" AuditModels.AGENT_DECISION
              [("decision", JStr "APPROVE")]).

(** The policy with both lists, with [openai] forbidden as well. *)
Definition denied_policy : UserPolicy :=
  mkUserPolicy ["openai"; "google"]
    (<["openai" := ["gpt-4"; "gpt-3.5-turbo"]]> (<["google" := ["gemini-pro"]]> ∅))
    ["openai"] [] 10 100 3000 None None 7 3 true.


(** Two logging calls about one request. *)
Definition one_request : list timed_call :=
  [ mkCall (RequestReceived "req_1" "user_001" "proj_001" None
                            [("provider", JStr "openai")])
           "0123456789abcdef0123456789abcdef" t0;
    mkCall (PolicyCheck "req_1" "user_001" "proj_001" ["provider_whitelist"]
                        [] true)
           "2123456789abcdef0123456789abcdef" t2 ].

End Sample.

Module AL := AuditLogger.
Module AM := AuditModels.

(** ** Invariants of results, trails and logs *)

Module Inv.




Section Intact.
Context {ft : FloatText}.



End Intact.

End Inv.

(** * Properties *)

(** ** The Python basics on known values *)

Example sha256_abc :
  SHA256.hexdigest "abc"
  = "ba7816bf8f01cfea414140de5dae2223b00361a396177a9cb410ff61f20015ad".
Proof. vm_compute. reflexivity. Qed.

Example sha256_empty :
  SHA256.hexdigest ""
  = "e3b0c44298fc1c149afbf4c8996fb92427ae41e4649b934ca495991b7852b855".
Proof. vm_compute. reflexivity. Qed.

Example sha256_first_round_constant : nth 0 SHA256.K 0 = 1116352408.
Proof. reflexivity. Qed.

Example dumps_sorts_keys :
  dumps (ft := short_decimal) true
    (JDict [("b", JInt 3); ("a", JList [JNull; JBool true; JFloat (1 # 2)])])
  = String.concat (String dquote "")
      ["{"; "a"; ": [null, true, 0.5], "; "b"; ": 3}"].
Proof. vm_compute. reflexivity. Qed.

Example isoformat_with_microseconds :
  isoformat (mkDatetime 2024 3 9 7 5 2 1234) = "2024-03-09T07:05:02.001234" /\
  isoformat (mkDatetime 2024 3 9 7 5 2 0) = "2024-03-09T07:05:02" /\
  weekday (mkDatetime 2024 3 9 7 5 2 0) = 5.
Proof. vm_compute. repeat split. Qed.

Example fixed_point_formats :
  fmt_f 2 (1 # 8) = "0.12" /\ fmt_f 4 (2 # 1000) = "0.0020" /\
  fmt_f 0 (7 # 2) = "4" /\ fmt_f 2 (- (1 # 3)) = "-0.33" /\
  repr_strs ["openai"; "google"] = "['openai', 'google']".
Proof. vm_compute. repeat split. Qed.

Import DecisionEngine.

(** ** Structural validation (Decision Engine, step 1) *)

Lemma truthy_str_true (s : string) : truthy_str s = true <-> s <> "".
Proof.
  unfold truthy_str. rewrite negb_true_iff. split.
  - intros H E. subst s. discriminate H.
  - intros H. destruct (String.eqb s "") eqn:E; [|reflexivity].
    apply String.eqb_eq in E. contradiction.
Qed.

Lemma truthy_str_false (s : string) : truthy_str s = false <-> s = "".
Proof.
  unfold truthy_str. rewrite negb_false_iff. apply String.eqb_eq.
Qed.

(** The validator names the first of the five required fields the
    dataclass declares that is empty; with all five filled it names
    [endpoint], which no [APIRequest] has. *)
Lemma validate_names_a_field (r : APIRequest) :
  exists field,
    In field [ "request_id"; "user_id"; "project_id"; "api_provider";
               "model_name"; "endpoint" ] /\
    _validate_request_structure r
    = mkValidation false (Some ("Missing required field: " ++ field)).
Proof.
  unfold _validate_request_structure.
  cbn [List.find attributes Obj.getattr Obj.find_attribute String.eqb
       Ascii.eqb Bool.eqb Obj.truthy Obj.VStr Obj.VNone negb].
  destruct (truthy_str (request_id r)); cbn [negb];
    [|exists "request_id"; split; [cbn; tauto|reflexivity]].
  destruct (truthy_str (user_id r)); cbn [negb];
    [|exists "user_id"; split; [cbn; tauto|reflexivity]].
  destruct (truthy_str (project_id r)); cbn [negb];
    [|exists "project_id"; split; [cbn; tauto|reflexivity]].
  destruct (truthy_str (api_provider r)); cbn [negb];
    [|exists "api_provider"; split; [cbn; tauto|reflexivity]].
  destruct (truthy_str (model_name r)); cbn [negb];
    [|exists "model_name"; split; [cbn; tauto|reflexivity]].
  exists "endpoint". split; [cbn; tauto|reflexivity].
Qed.

Lemma validate_refuses (r : APIRequest) :
  valid (_validate_request_structure r) = false.
Proof.
  destruct (validate_names_a_field r) as (field & _ & E). rewrite E. reflexivity.
Qed.

Lemma validate_refuses_valid (r : APIRequest) :
  Spec.structurally_valid r ->
  _validate_request_structure r
  = mkValidation false (Some "Missing required field: endpoint").
Proof.
  intros (H1 & H2 & H3 & H4 & H5 & _).
  apply truthy_str_true in H1, H2, H3, H4, H5.
  unfold _validate_request_structure.
  cbn [List.find attributes Obj.getattr Obj.find_attribute String.eqb
       Ascii.eqb Bool.eqb Obj.truthy Obj.VStr Obj.VNone negb].
  rewrite H1, H2, H3, H4, H5. reflexivity.
Qed.

(** A request the validator refuses is answered at step 1: REJECTED, tier
    SYSTEM, the validation error as reason, one [error] record written. *)
Lemma invalid_request_rejected `{FloatText} (svc : Services)
    (r : APIRequest) (l : AuditLogger.Logger) :
  valid (_validate_request_structure r) = false ->
  fst (process_request svc r l)
  = system_decision r REJECTED
      ("Invalid request: " ++ default "None" (v_error (_validate_request_structure r)))
      "Request validation failed" 1 /\
  AuditLogger.log_file (snd (process_request svc r l))
  = push (AuditLogger.log_file l)
     (AuditLogger.new_event
        (AuditLogger._generate_log_id (next_uuid svc l)) (next_now svc l)
        (request_id r) (user_id r) (project_id r) None AuditLogger.EV_ERROR
        [("validation_error", of_ostr (v_error (_validate_request_structure r)))]
        [("action", JStr "error")] "failure"
        (Some ("Invalid request: "
               ++ default "None" (v_error (_validate_request_structure r))))
        (AuditLogger._last_hash l) None).
Proof.
  intros Hv. unfold process_request. rewrite Hv. cbn [negb fst snd].
  split; [reflexivity|].
  unfold AuditLogger.log_error, AuditLogger.add_to_known_trail, AuditLogger._write_event.
  cbn [AuditLogger._trails AuditLogger.log_file].
  match goal with |- context [match ?x with Some _ => _ | None => _ end] => destruct x end;
    reflexivity.
Qed.

Lemma length_push {A} (l : list A) (x : A) : length (push l x) = S (length l).
Proof. unfold push. rewrite length_app. cbn. lia. Qed.

(** C4 does not hold of the code. The validator requires a non-empty
    attribute [endpoint], which the dataclass [APIRequest] does not
    declare, and never looks at [operation_type]: it accepts no request at
    all. Every request is answered by [process_request] with a REJECTED
    decision of tier SYSTEM and one [error] record; for a request that
    meets the conditions of the claim the reason is the missing [endpoint].
    The example request of the docstring of [APIRequest] is such a
    request. *)
Theorem C4_no_request_passes_structural_validation `{FloatText}
    (svc : Services) (r : APIRequest) (l : AuditLogger.Logger) :
  valid (_validate_request_structure r) = false /\
  outcome (fst (process_request svc r l)) = REJECTED /\
  agent_tier (fst (process_request svc r l)) = "SYSTEM" /\
  length (AuditLogger.log_file (snd (process_request svc r l)))
  = S (length (AuditLogger.log_file l)) /\
  (Spec.structurally_valid r ->
   rejection_reason (fst (process_request svc r l))
   = Some "Invalid request: Missing required field: endpoint") /\
  Spec.structurally_valid Sample.docstring_request /\
  _validate_request_structure Sample.docstring_request
  = mkValidation false (Some "Missing required field: endpoint").
Proof.
  pose proof (validate_refuses r) as Hv.
  destruct (invalid_request_rejected svc r l Hv) as (Hd & Hl).
  split; [exact Hv|]. rewrite Hd, Hl, length_push.
  repeat (split; [reflexivity|]).
  split.
  - intros Hs. rewrite (validate_refuses_valid r Hs). reflexivity.
  - split; [|reflexivity].
    unfold Spec.structurally_valid. cbn.
    repeat split; try discriminate; congruence.
Qed.

(** ** Allow-list check (Decision Engine, step 4) *)

Lemma allow_list_empty (request : APIRequest) (p : UserPolicy) :
  allowed_providers p = [] ->
  _validate_provider_model request (Some p)
  = mkPMV false (Some "No providers configured for this project")
          (Some "NO_PROVIDERS_CONFIGURED").
Proof.
  intros He. unfold _validate_provider_model. rewrite He. reflexivity.
Qed.

Lemma allow_list_no_policy (request : APIRequest) :
  _validate_provider_model request None
  = mkPMV false (Some "No providers configured for this project")
          (Some "NO_PROVIDERS_CONFIGURED").
Proof. reflexivity. Qed.

(** C1, as stated, fails: a request without a model name, processed for a
    user whose policy lists no provider, is rejected, but at step 1 and
    with the validation error as its reason; the allow-list check, which
    would answer NO_PROVIDERS_CONFIGURED for it, is not reached. *)
Lemma C1_counterexample :
  allowed_providers Sample.empty_policy = [] /\
  rejection_type (_validate_provider_model Sample.no_model_request
                    (Some Sample.empty_policy))
  = Some "NO_PROVIDERS_CONFIGURED" /\
  (let decision :=
     fst (process_request (ft := short_decimal)
            (Sample.services Sample.empty_policy) Sample.no_model_request
            AuditLogger.new_logger) in
   outcome decision = REJECTED /\
   rejection_reason decision
   = Some "Invalid request: Missing required field: model_name" /\
   ostr_eqb (rejection_reason decision)
            (Some "No providers configured for this project") = false).
Proof. vm_compute. repeat split. Qed.

(** C1, amended. For every request and every user policy whose
    [allowed_providers] is empty, the allow-list check of the Decision
    Engine answers invalid with rejection type NO_PROVIDERS_CONFIGURED,
    whatever the other fields of the request and of the policy. The check is
    preceded by structural validation: a request that fails it is rejected
    there, tier SYSTEM, with the validation error as its reason. *)
Theorem C1_empty_allow_list_is_closed `{FloatText} (svc : Services)
    (request : APIRequest) (p : UserPolicy) (l : AuditLogger.Logger) :
  allowed_providers p = [] ->
  valid (_validate_request_structure request) = false ->
  _validate_provider_model request (Some p)
  = mkPMV false (Some "No providers configured for this project")
          (Some "NO_PROVIDERS_CONFIGURED") /\
  outcome (fst (process_request svc request l)) = REJECTED /\
  agent_tier (fst (process_request svc request l)) = "SYSTEM" /\
  rejection_reason (fst (process_request svc request l))
  = Some ("Invalid request: "
          ++ default "None" (v_error (_validate_request_structure request))).
Proof.
  intros He Hv. split; [exact (allow_list_empty request p He)|].
  destruct (invalid_request_rejected svc request l Hv) as (Hd & _).
  rewrite Hd. repeat split.
Qed.

Lemma C1_witness :
  _validate_provider_model Sample.no_model_request (Some Sample.empty_policy)
  = mkPMV false (Some "No providers configured for this project")
          (Some "NO_PROVIDERS_CONFIGURED") /\
  outcome (fst (process_request (ft := short_decimal)
                  (Sample.services Sample.empty_policy)
                  Sample.no_model_request AuditLogger.new_logger)) = REJECTED /\
  agent_tier (fst (process_request (ft := short_decimal)
                     (Sample.services Sample.empty_policy)
                     Sample.no_model_request AuditLogger.new_logger))
  = "SYSTEM" /\
  rejection_reason (fst (process_request (ft := short_decimal)
                           (Sample.services Sample.empty_policy)
                           Sample.no_model_request AuditLogger.new_logger))
  = Some ("Invalid request: "
          ++ default "None"
               (v_error (_validate_request_structure Sample.no_model_request))).
Proof.
  apply (C1_empty_allow_list_is_closed (H := short_decimal)
           (Sample.services Sample.empty_policy) Sample.no_model_request
           Sample.empty_policy AuditLogger.new_logger); reflexivity.
Defined.

(** ** The allow-list replayed by the Policy Manager (step 6) *)

Import PolicyManager.

Lemma replayed_spelled_out (provider model : string) (p : UserPolicy) :
  replayed_allow_list provider model p
  = negb (in_strs provider (forbidden_providers p))
    && (negb (truthy_list (allowed_providers p))
        || in_strs provider (allowed_providers p))
    && match allowed_models p !! provider with
       | None => true
       | Some models => in_strs model models
       end.
Proof.
  unfold replayed_allow_list, _validate_provider, _validate_model.
  destruct (in_strs provider (forbidden_providers p)); cbn; [reflexivity|].
  destruct (truthy_list (allowed_providers p)); cbn.
  - destruct (in_strs provider (allowed_providers p)); cbn; [|reflexivity].
    destruct (allowed_models p !! provider) as [ms|]; cbn; [|reflexivity].
    destruct (in_strs model ms); reflexivity.
  - destruct (allowed_models p !! provider) as [ms|]; cbn; [|reflexivity].
    destruct (in_strs model ms); reflexivity.
Qed.

Lemma direct_spelled_out (request : APIRequest) (p : UserPolicy) :
  pm_valid (_validate_provider_model request (Some p))
  = in_strs (api_provider request) (allowed_providers p)
    && match allowed_models p !! api_provider request with
       | None => false
       | Some models => in_strs (model_name request) models
       end.
Proof.
  unfold _validate_provider_model.
  destruct (allowed_providers p) as [|a ps] eqn:Ea; [reflexivity|].
  cbn [truthy_list negb].
  destruct (in_strs (api_provider request) (a :: ps)); cbn [negb andb]; [|reflexivity].
  destruct (allowed_models p !! api_provider request) as [ms|];
    cbn [default from_option id]; [|reflexivity].
  destruct ms as [|m ms]; [reflexivity|]. cbn [truthy_list negb].
  destruct (in_strs (model_name request) (m :: ms)); reflexivity.
Qed.

(** Where both lists are configured for the provider and it is not
    forbidden, the replay gives the outcome of the direct check. *)
Lemma replay_agrees_when_configured (request : APIRequest) (p : UserPolicy) :
  in_strs (api_provider request) (forbidden_providers p) = false ->
  allowed_providers p <> [] ->
  is_Some (allowed_models p !! api_provider request) ->
  replayed_allow_list (api_provider request) (model_name request) p
  = pm_valid (_validate_provider_model request (Some p)).
Proof.
  intros Hf Ha [ms Hm].
  rewrite replayed_spelled_out, direct_spelled_out, Hf, Hm.
  destruct (allowed_providers p); [contradiction|]. reflexivity.
Qed.

(** C3 does not hold of the code. Where the provider is not forbidden and
    [allowed_providers] is empty, or lists the provider while
    [allowed_models] has no entry for it, the Decision Engine's check
    rejects and the Policy Manager's [_validate_provider] returns [True];
    with no entry in [allowed_models] the whole replay allows. *)
Theorem C3_replay_allows_what_the_engine_rejects (request : APIRequest)
    (p : UserPolicy) (result : ComplianceResult) :
  in_strs (api_provider request) (forbidden_providers p) = false ->
  allowed_providers p = [] \/
  (in_strs (api_provider request) (allowed_providers p) = true /\
   allowed_models p !! api_provider request = None) ->
  pm_valid (_validate_provider_model request (Some p)) = false /\
  fst (_validate_provider (api_provider request) p result) = true /\
  (allowed_models p !! api_provider request = None ->
   replayed_allow_list (api_provider request) (model_name request) p = true).
Proof.
  intros Hf Hcase. rewrite direct_spelled_out, replayed_spelled_out, Hf.
  unfold _validate_provider. rewrite Hf.
  destruct Hcase as [He | [Hin Hm]].
  - rewrite He. cbn. repeat split. intros ->. reflexivity.
  - rewrite Hin, Hm, andb_false_r, orb_true_r.
    destruct (truthy_list (allowed_providers p)); cbn; repeat split.
Qed.

Lemma C3_witness :
  (pm_valid (_validate_provider_model Sample.chat_request
               (Some Sample.empty_policy)) = false /\
   fst (_validate_provider "openai" Sample.empty_policy new_result) = true /\
   (allowed_models Sample.empty_policy !! "openai" = None ->
    replayed_allow_list "openai" "gpt-4" Sample.empty_policy = true)) /\
  (pm_valid (_validate_provider_model Sample.chat_request
               (Some Sample.provider_only_policy)) = false /\
   fst (_validate_provider "openai" Sample.provider_only_policy new_result)
   = true /\
   (allowed_models Sample.provider_only_policy !! "openai" = None ->
    replayed_allow_list "openai" "gpt-4" Sample.provider_only_policy = true)).
Proof.
  split.
  - apply (C3_replay_allows_what_the_engine_rejects Sample.chat_request
             Sample.empty_policy new_result); [reflexivity|].
    left. reflexivity.
  - apply (C3_replay_allows_what_the_engine_rejects Sample.chat_request
             Sample.provider_only_policy new_result); [reflexivity|].
    right. split; reflexivity.
Defined.

(** The failing input evaluated: the replay allows, the engine rejects. *)
Example replay_on_unconfigured_policy :
  replayed_allow_list "openai" "gpt-4" Sample.empty_policy = true /\
  _validate_provider_model Sample.chat_request (Some Sample.empty_policy)
  = mkPMV false (Some "No providers configured for this project")
          (Some "NO_PROVIDERS_CONFIGURED") /\
  replayed_allow_list "openai" "gpt-4" Sample.provider_only_policy = true /\
  _validate_provider_model Sample.chat_request
    (Some Sample.provider_only_policy)
  = mkPMV false (Some "No models configured for provider 'openai'")
          (Some "NO_MODELS_CONFIGURED").
Proof. repeat split. Qed.

(** What is left of the agreement without those conditions: a request the
    direct check allows is allowed by the replay unless the provider is
    forbidden; and where a list is missing the replay is open. *)
Lemma direct_allows_replay_allows (request : APIRequest) (p : UserPolicy) :
  in_strs (api_provider request) (forbidden_providers p) = false ->
  pm_valid (_validate_provider_model request (Some p)) = true ->
  replayed_allow_list (api_provider request) (model_name request) p = true.
Proof.
  intros Hf. rewrite replayed_spelled_out, direct_spelled_out, Hf.
  intros [Hp Hm]%andb_true_iff. rewrite Hp, orb_true_r. cbn.
  destruct (allowed_models p !! api_provider request); [assumption|discriminate].
Qed.

Lemma replay_open_without_lists (request : APIRequest) (p : UserPolicy) :
  in_strs (api_provider request) (forbidden_providers p) = false ->
  allowed_providers p = [] ->
  allowed_models p !! api_provider request = None ->
  replayed_allow_list (api_provider request) (model_name request) p = true /\
  pm_valid (_validate_provider_model request (Some p)) = false.
Proof.
  intros Hf Ha Hm.
  rewrite replayed_spelled_out, direct_spelled_out, Hf, Ha, Hm. split; reflexivity.
Qed.

(** In [check_compliance] the replay is what decides the allow-list
    violations: it is reached once the system layer has passed, and the
    request is then refused with a [provider_whitelist] or [model_whitelist]
    violation exactly when the replay denies. *)
Lemma compliance_uses_replay `{FloatText} (now : datetime) (loaded : SystemPolicy)
    (request : APIRequest) (p : UserPolicy) (sp : SystemPolicy) :
  in_strs (api_provider request) (blocked_providers sp) = false ->
  in_strs (api_provider request ++ "/" ++ model_name request) (blocked_models sp) = false ->
  Qgtb (estimated_cost request) (max_per_request_limit sp) = false ->
  replayed_allow_list (api_provider request) (model_name request) p = false ->
  compliant (check_compliance now loaded request p (Some sp)) = false /\
  exists v, violations (check_compliance now loaded request p (Some sp)) = [v] /\
            severity v = "critical" /\
            (policy_name v = "provider_whitelist" \/ policy_name v = "model_whitelist").
Proof.
  intros H1 H2 H3. unfold check_compliance, replayed_allow_list.
  rewrite H1, H2, H3.
  unfold _validate_provider.
  destruct (in_strs (api_provider request) (forbidden_providers p)); cbn.
  { intros _. split; [reflexivity|]. eexists. split; [reflexivity|]. cbn. auto. }
  destruct (truthy_list (allowed_providers p)); cbn.
  - destruct (in_strs (api_provider request) (allowed_providers p)); cbn.
    + unfold _validate_model.
      destruct (allowed_models p !! api_provider request) as [ms|]; cbn; [|discriminate].
      destruct (in_strs (model_name request) ms); cbn; [discriminate|].
      intros _. split; [reflexivity|]. eexists. split; [reflexivity|]. cbn. auto.
    + intros _. split; [reflexivity|]. eexists. split; [reflexivity|]. cbn. auto.
  - unfold _validate_model.
    destruct (allowed_models p !! api_provider request) as [ms|]; cbn; [|discriminate].
    destruct (in_strs (model_name request) ms); cbn; [discriminate|].
    intros _. split; [reflexivity|]. eexists. split; [reflexivity|]. cbn. auto.
Qed.

(** ** Floats as rationals: the comparisons of the code and order on [Q] *)

Lemma Qltb_lt (x y : Q) : Qltb x y = true <-> (x < y)%Q.
Proof.
  unfold Qltb. rewrite negb_true_iff. split.
  - intros H. apply Qnot_le_lt. intros Hle.
    apply Qle_bool_iff in Hle. congruence.
  - intros H. destruct (Qle_bool y x) eqn:E; [|reflexivity].
    apply Qle_bool_iff in E. exfalso. apply (Qlt_not_le _ _ H E).
Qed.

Lemma Qltb_ge (x y : Q) : Qltb x y = false <-> (y <= x)%Q.
Proof.
  unfold Qltb. rewrite negb_false_iff. apply Qle_bool_iff.
Qed.


Lemma Qgtb_le (x y : Q) : Qgtb x y = false <-> (x <= y)%Q.
Proof. apply Qltb_ge. Qed.

Lemma Qeqb_eq (x y : Q) : Qeqb x y = true <-> (x == y)%Q.
Proof. apply Qeq_bool_iff. Qed.

Lemma Qltb_compat (x x' y y' : Q) :
  (x == x')%Q -> (y == y')%Q -> Qltb x y = Qltb x' y'.
Proof.
  intros Hx Hy. destruct (Qltb x' y') eqn:E.
  - apply Qltb_lt. apply Qltb_lt in E. rewrite Hx, Hy. exact E.
  - apply Qltb_ge. apply Qltb_ge in E. rewrite Hx, Hy. exact E.
Qed.

Lemma Qdiv_gt_iff (x a c : Q) :
  (0 < a)%Q -> (c < x / a)%Q <-> (c * a < x)%Q.
Proof.
  intros Ha. split; intros H.
  - apply (Qmult_lt_r _ _ a Ha) in H.
    assert (E : (x / a * a == x)%Q) by (field; intros E0; rewrite E0 in Ha; inversion Ha).
    rewrite E in H. exact H.
  - apply Qlt_shift_div_l; assumption.
Qed.

(** ** Risk Detector *)

Import RiskDetector.

Lemma level_of_score_is_category (s : Q) : level_of_score s = Spec.category_of s.
Proof. reflexivity. Qed.

(** What [__post_init__] does where an assessment is constructed with a
    score: the level is the category of that score. *)
Lemma constructed_level_is_category (rid uid pid lv : string) (s : Q)
    (r : RiskAssessmentResult) :
  new_assessment rid uid pid (Some s) (Some lv) = Ok r ->
  risk_score r = s /\ risk_level r = Spec.category_of s.
Proof. intros [= <-]. split; reflexivity. Qed.

(** C5 does not hold of the code: the Risk Detector returns no assessment.
    [assess_risk] constructs its result from the three identifiers alone,
    and the dataclass has no default for [risk_score] and [risk_level]:
    whatever the request, the context, the baseline and the clock, the call
    raises [TypeError] before any check runs. *)
Theorem C5_assess_risk_returns_no_assessment (request : APIRequest)
    (user_context : UserContext) (fetched : Py.result UserBaseline)
    (now : datetime) :
  exists message,
    assess_risk request user_context fetched now
    = Raise (Exn "TypeError" message).
Proof. eexists. reflexivity. Qed.

(** The failing input: a caller with five recent rejections, no baseline. *)
Example assess_risk_on_rejected_caller :
  exists message,
    assess_risk Sample.chat_request Sample.rejected_context Sample.no_baseline
                Sample.t0
    = Raise (Exn "TypeError" message).
Proof. eexists. reflexivity. Qed.

(** The thresholds [_check_cost_anomaly] implements against a positive
    baseline mean: the relative excess [(cost - mean) / mean] is compared
    with 3 and 2, that is the cost with 4 and 3 times the mean. *)
Lemma cost_anomaly_thresholds (request : APIRequest) (b : UserBaseline) :
  (0 < average_request_cost b)%Q ->
  let cost := estimated_cost request in
  let avg := average_request_cost b in
  let deviation := ((cost - avg) / avg)%Q in
  option_map (fun f => (risk_contribution f, severity f))
             (_check_cost_anomaly request (Some b))
  = if Qltb (4 * avg) cost then Some (Qmin 3 deviation, "high")
    else if Qltb (3 * avg) cost then Some ((3 # 2)%Q, "medium")
    else None.
Proof.
  intros Hpos cost avg deviation. unfold _check_cost_anomaly.
  fold cost avg. fold deviation.
  assert (Hz : Qeqb avg 0 = false).
  { destruct (Qeqb avg 0) eqn:E; [|reflexivity].
    apply Qeqb_eq in E. unfold avg in E. lra. }
  rewrite Hz.
  assert (H3 : Qgtb deviation 3 = Qltb (4 * avg) cost).
  { unfold Qgtb. destruct (Qltb (4 * avg) cost) eqn:E.
    - apply Qltb_lt. apply Qltb_lt in E. apply Qdiv_gt_iff; [exact Hpos|].
      unfold cost, avg in *. lra.
    - apply Qltb_ge. apply Qltb_ge in E.
      apply Qnot_lt_le. intros Hlt. apply Qdiv_gt_iff in Hlt; [|exact Hpos].
      unfold cost, avg in *. lra. }
  assert (H2 : Qgtb deviation 2 = Qltb (3 * avg) cost).
  { unfold Qgtb. destruct (Qltb (3 * avg) cost) eqn:E.
    - apply Qltb_lt. apply Qltb_lt in E. apply Qdiv_gt_iff; [exact Hpos|].
      unfold cost, avg in *. lra.
    - apply Qltb_ge. apply Qltb_ge in E.
      apply Qnot_lt_le. intros Hlt. apply Qdiv_gt_iff in Hlt; [|exact Hpos].
      unfold cost, avg in *. lra. }
  rewrite H3, H2.
  destruct (Qltb (4 * avg) cost); [reflexivity|].
  destruct (Qltb (3 * avg) cost); reflexivity.
Qed.

(** C6 does not hold of the code. Against a baseline mean of 1, a request of
    cost 3.5 (more than 3 times the mean) gets the mild contribution 1.5
    where the spec's table gives min(3.0, deviation) = 2.5, and a request of
    cost 2.5 (more than 2 times the mean) gets no cost factor where the
    table gives 1.5: the code compares the relative excess, not the cost,
    with 3 and 2. *)
Theorem C6_cost_spike_thresholds_off_by_one_mean :
  (option_map risk_contribution
     (_check_cost_anomaly (Sample.request_costing (7 # 2))
                          (Some Sample.unit_baseline)) = Some (3 # 2)%Q /\
   Spec.cost_spike_contribution (7 # 2) 1 = Some (5 # 2)%Q) /\
  (_check_cost_anomaly (Sample.request_costing (5 # 2))
                       (Some Sample.unit_baseline) = None /\
   Spec.cost_spike_contribution (5 # 2) 1 = Some (3 # 2)%Q) /\
  (option_map risk_contribution
     (_check_cost_anomaly (Sample.request_costing (9 # 2))
                          (Some Sample.unit_baseline)) = Some 3%Q /\
   Spec.cost_spike_contribution (9 # 2) 1 = Some 3%Q).
Proof. vm_compute. repeat split. Qed.

(** ** Budget Tracker: the projection rule *)

Import BudgetTracker.

(** The result class takes none of the keyword arguments
    [check_against_policy] passes after [available]: the constructor call
    raises whatever the values. *)
Lemma BudgetCheckModel_refuses_current_balance (now : datetime)
    (available current_balance : Obj.value) (more : Obj.instance) :
  exists message,
    BudgetCheckModel now
      (("available", available) :: ("current_balance", current_balance) :: more)
    = Raise (Exn "TypeError" message).
Proof. eexists. reflexivity. Qed.

(** [policy.per_request_limit]: the policy class names the limit
    [per_request_max]. *)
Lemma policy_has_no_per_request_limit (policy : BudgetPolicy) :
  Obj.attribute "BudgetPolicy" (policy_attributes policy) "per_request_limit"
  = Raise (Exn "AttributeError"
             "'BudgetPolicy' object has no attribute 'per_request_limit'").
Proof. reflexivity. Qed.

(** C8 does not hold of the code: [check_against_policy] permits nothing
    and refuses nothing, it raises. Reading [policy.per_request_limit]
    raises inside the [try]; the [except] clause then builds its result with
    keyword arguments the result class does not take, and that [TypeError]
    leaves the function, whatever the tracker, the backend's answer, the
    amount and the policy. The spec's rule permits the request of 1 against
    a balance of 5 under the default limits. *)
Theorem C8_check_against_policy_returns_no_check (t : Tracker)
    (now later at_return : datetime) (reply : Py.result StatusReply)
    (u p : string) (amount : Q) (policy : BudgetPolicy) :
  (exists message,
     fst (check_against_policy t now later at_return reply u p amount policy)
     = Raise (Exn "TypeError" message))
  /\
  Spec.permitted 5 0 0 1
    (Some (per_request_max Sample.default_limits))
    (Some (daily_limit Sample.default_limits))
    (Some (monthly_limit Sample.default_limits)).
Proof.
  split.
  - unfold check_against_policy.
    destruct (get_budget_status t now later reply u p true) as [[status|e] t'];
      eexists; reflexivity.
  - unfold Spec.permitted. cbn.
    repeat split; try (intros lim [= <-]); lra.
Qed.

(** The failing input evaluated: the status is fetched and cached, then the
    call raises. *)
Example check_against_policy_on_default_limits :
  let (check, tracker) :=
    check_against_policy Sample.empty_tracker Sample.t0 Sample.t1 Sample.t2
      (Ok Sample.balance_of_five) "user_001" "proj_001" 1
      Sample.default_limits in
  (exists message, check = Raise (Exn "TypeError" message)) /\
  option_map (fun entry => available_balance (fst entry))
             (cached tracker "user_001" "proj_001") = Some 5%Q.
Proof. vm_compute. split; [eexists|]; reflexivity. Qed.

(** ** Payment Executor: settlement *)

Import PaymentExecutor.

(** [ENDPOINTS] has no category [payments]: asking for one of its endpoints
    subscripts [None]. *)
Lemma no_payments_endpoint (url name : string) (kwargs : list (string * string)) :
  Config.get_endpoint url "payments" (Some name) kwargs
  = Raise (Exn "TypeError" "'NoneType' object is not subscriptable").
Proof. reflexivity. Qed.

Lemma reserve_payment_raises (url : string) (reply : ReserveReply)
    (now : datetime) (rid uid pid : string) (estimated : Q) :
  reserve_payment url reply now rid uid pid estimated
  = Raise (Exn "PaymentError"
             "Payment error: 'NoneType' object is not subscriptable").
Proof. reflexivity. Qed.

(** C9 does not hold of the code: no settlement returns a payment result.
    [commit_payment] computes the variance and then asks the configuration
    for the endpoint [payments]/[commit], which [ENDPOINTS] does not have;
    the [TypeError] is caught and raised again as [PaymentError], before the
    backend is asked and whatever it would answer. *)
Theorem C9_commit_payment_returns_no_result (url : string)
    (reply : Py.result (option string)) (now later : datetime)
    (reservation : PaymentReservation) (actual : Q) (prov : string) :
  commit_payment url reply now later reservation actual prov
  = Raise (Exn "PaymentError"
             "Payment logging error: 'NoneType' object is not subscriptable").
Proof. reflexivity. Qed.

(** The failing input evaluated: a reservation of 0.002 settled at 0.0025
    with a backend that would acknowledge. *)
Example commit_payment_on_acknowledging_backend :
  commit_payment "http://localhost:5000/api" (Ok (Some "pay_1")) Sample.t1
                 Sample.t2 Sample.reservation (25 # 10000) "openai"
  = Raise (Exn "PaymentError"
             "Payment logging error: 'NoneType' object is not subscriptable").
Proof. reflexivity. Qed.

(** ** Budget Tracker: the status cache *)

Lemma has_char_cons (c a : ascii) (s : string) :
  has_char c (String a s) = Ascii.eqb c a || has_char c s.
Proof. reflexivity. Qed.

Lemma cache_key_cons (a : ascii) (u p : string) :
  cache_key (String a u) p = String a (cache_key u p).
Proof. reflexivity. Qed.

Lemma cache_key_nil (p : string) : cache_key "" p = String ":" p.
Proof. reflexivity. Qed.

Lemma cache_key_inj (u u' p p' : string) :
  has_char ":" u = false -> has_char ":" u' = false ->
  cache_key u p = cache_key u' p' -> u = u' /\ p = p'.
Proof.
  revert u'. induction u as [|a u IH]; intros [|b u'] Hu Hu'.
  - rewrite !cache_key_nil. intros [= ->]. split; reflexivity.
  - rewrite cache_key_nil, cache_key_cons. intros [= <- _].
    rewrite has_char_cons in Hu'. discriminate Hu'.
  - rewrite cache_key_nil, cache_key_cons. intros [= -> _].
    rewrite has_char_cons in Hu. discriminate Hu.
  - rewrite !cache_key_cons. intros [= -> Hk].
    rewrite has_char_cons in Hu, Hu'.
    apply orb_false_iff in Hu as [_ Hu]. apply orb_false_iff in Hu' as [_ Hu'].
    destruct (IH u' Hu Hu' Hk) as [-> ->]. split; reflexivity.
Qed.

Lemma append_nil_l (s : string) : "" ++ s = s.
Proof. reflexivity. Qed.

Lemma append_cons (a : ascii) (s t : string) : String a s ++ t = String a (s ++ t).
Proof. reflexivity. Qed.

Lemma prefix_cons (a b : ascii) (s1 s2 : string) :
  String.prefix (String a s1) (String b s2)
  = if Ascii.eqb a b then String.prefix s1 s2 else false.
Proof.
  cbn [String.prefix]. destruct (ascii_dec a b) as [->|Hn].
  - rewrite Ascii.eqb_refl. reflexivity.
  - destruct (Ascii.eqb a b) eqn:E; [|reflexivity].
    apply Ascii.eqb_eq in E. contradiction.
Qed.

Lemma prefix_nil (s : string) : String.prefix "" s = true.
Proof. destruct s; reflexivity. Qed.

(** The keys that start with [u:] are the keys of the pairs of principal
    [u], as long as principals carry no separator. *)
Lemma prefix_of_key (u u' p' : string) :
  has_char ":" u = false -> has_char ":" u' = false ->
  String.prefix (u ++ ":") (cache_key u' p') = true <-> u = u'.
Proof.
  revert u'. induction u as [|a u IH]; intros [|b u'] Hu Hu'.
  - rewrite cache_key_nil. rewrite ?append_nil_l, ?append_cons. rewrite prefix_cons, prefix_nil.
    split; reflexivity.
  - rewrite cache_key_cons. rewrite ?append_nil_l, ?append_cons. rewrite prefix_cons.
    rewrite has_char_cons in Hu'. apply orb_false_iff in Hu' as [Hb _].
    rewrite Hb. split; discriminate.
  - rewrite cache_key_nil. rewrite ?append_nil_l, ?append_cons. rewrite prefix_cons.
    rewrite has_char_cons in Hu. apply orb_false_iff in Hu as [Ha _].
    rewrite Ascii.eqb_sym, Ha. split; discriminate.
  - rewrite cache_key_cons. rewrite ?append_nil_l, ?append_cons. rewrite prefix_cons.
    rewrite has_char_cons in Hu, Hu'.
    apply orb_false_iff in Hu as [_ Hu]. apply orb_false_iff in Hu' as [_ Hu'].
    destruct (Ascii.eqb a b) eqn:E.
    + apply Ascii.eqb_eq in E. subst b. rewrite (IH u' Hu Hu').
      split; [intros ->; reflexivity|intros [= ->]; reflexivity].
    + split; [discriminate|]. intros [= -> _].
      rewrite Ascii.eqb_refl in E. discriminate E.
Qed.

Lemma lookup_fold_delete {V} (ks : list string) (m : gmap string V) (k : string) :
  fold_left (fun c key => delete key c) ks m !! k
  = if bool_decide (k ∈ ks) then None else m !! k.
Proof.
  revert m. induction ks as [|a ks IH]; intros m; cbn [fold_left].
  - rewrite bool_decide_eq_false_2; [reflexivity|]. apply not_elem_of_nil.
  - rewrite IH. destruct (decide (k = a)) as [->|Hne].
    + rewrite lookup_delete_eq.
      rewrite (bool_decide_eq_true_2 (a ∈ a :: ks)); [|left].
      destruct (bool_decide (a ∈ ks)); reflexivity.
    + rewrite lookup_delete_ne by congruence.
      destruct (bool_decide (k ∈ ks)) eqn:E.
      * apply bool_decide_eq_true_1 in E.
        rewrite bool_decide_eq_true_2; [reflexivity|]. right. exact E.
      * apply bool_decide_eq_false_1 in E.
        rewrite bool_decide_eq_false_2; [reflexivity|].
        intros [?|?]%elem_of_cons; contradiction.
Qed.

Lemma truthy_ostr_some (s : string) : s <> "" -> truthy_ostr (Some s) = true.
Proof. intros H. apply truthy_str_true. exact H. Qed.

(** [clear_cache] on the keys of the cache: with a principal and a project
    it drops the one key [principal:project]; with a principal alone, the
    keys that start with [principal:]; with neither, every key. *)
Lemma clear_cache_pair_key (t : Tracker) (u p k : string) :
  u <> "" -> p <> "" ->
  _cache (clear_cache t (Some u) (Some p)) !! k
  = if decide (k = cache_key u p) then None else _cache t !! k.
Proof.
  intros Hu Hp. unfold clear_cache.
  rewrite (truthy_ostr_some u Hu), (truthy_ostr_some p Hp).
  cbn [andb _cache default from_option id].
  destruct (decide (k = cache_key u p)) as [->|Hne].
  - apply lookup_delete_eq.
  - apply lookup_delete_ne. congruence.
Qed.

Lemma clear_cache_principal_key (t : Tracker) (u : string) (po : option string)
    (k : string) :
  u <> "" -> truthy_ostr po = false ->
  _cache (clear_cache t (Some u) po) !! k
  = if String.prefix (u ++ ":") k then None else _cache t !! k.
Proof.
  intros Hu Hp. unfold clear_cache.
  rewrite (truthy_ostr_some u Hu), Hp.
  cbn [andb _cache default from_option id].
  rewrite lookup_fold_delete.
  destruct (String.prefix (u ++ ":") k) eqn:Epre.
  - destruct (_cache t !! k) as [v|] eqn:Ek.
    + rewrite bool_decide_eq_true_2; [reflexivity|].
      apply list_elem_of_In, filter_In. split; [|exact Epre].
      apply in_map_iff. exists (k, v). split; [reflexivity|].
      apply list_elem_of_In, elem_of_map_to_list. exact Ek.
    + destruct (bool_decide _); reflexivity.
  - rewrite bool_decide_eq_false_2; [reflexivity|].
    intros Hin%list_elem_of_In%filter_In. destruct Hin as [_ Hin]. congruence.
Qed.

Lemma clear_cache_all (t : Tracker) (po : option string) :
  _cache (clear_cache t None po) = ∅.
Proof. reflexivity. Qed.

(** C10, as stated, fails. The cache is keyed by the text
    [principal:project]: clearing the pair (a:b, c) removes the entry of the
    other pair (a, b:c), which has the same key; and a call with a principal
    and an empty project removes every entry of the principal, a call with
    an empty principal every entry. *)
Lemma C10_counterexample :
  (cached Sample.colon_tracker "a" "b:c" = Some (Sample.status_of_five, Sample.t0) /\
   cached (clear_cache Sample.colon_tracker (Some "a:b") (Some "c")) "a" "b:c"
   = None) /\
  (cached Sample.two_pair_tracker "bob" "web" = Some (Sample.status_of_five, Sample.t0) /\
   cached (clear_cache Sample.two_pair_tracker (Some "") (Some "web")) "bob" "web"
   = None) /\
  (cached Sample.two_pair_tracker "alice" "web" = Some (Sample.status_of_five, Sample.t0) /\
   cached (clear_cache Sample.two_pair_tracker (Some "alice") (Some "")) "alice" "web"
   = None).
Proof. vm_compute. repeat split. Qed.

(** C10, amended. For a principal that is not empty and has no colon in it
    and a project that is not empty, [clear_cache] with both removes the
    entry of that pair and leaves unchanged the cached status of every other
    pair whose principal has no colon; with the principal alone it removes
    exactly the entries of that principal; with no argument it empties the
    cache. *)
Theorem C10_clear_cache_frame (t : Tracker) (u p : string) :
  plain_id u -> p <> "" ->
  (cached (clear_cache t (Some u) (Some p)) u p = None /\
   forall u' p', plain_id u' -> (u', p') <> (u, p) ->
     cached (clear_cache t (Some u) (Some p)) u' p' = cached t u' p') /\
  (forall u' p', plain_id u' ->
     cached (clear_cache t (Some u) None) u' p'
     = if decide (u' = u) then None else cached t u' p') /\
  _cache (clear_cache t None None) = ∅.
Proof.
  intros [Hu Hcu] Hp. split; [split|split].
  - unfold cached. rewrite clear_cache_pair_key by assumption.
    rewrite decide_True; reflexivity.
  - intros u' p' [_ Hcu'] Hne. unfold cached.
    rewrite clear_cache_pair_key by assumption.
    rewrite decide_False; [reflexivity|].
    intros Hk. apply cache_key_inj in Hk as [-> ->]; [|assumption..].
    apply Hne. reflexivity.
  - intros u' p' [_ Hcu']. unfold cached.
    rewrite clear_cache_principal_key by (assumption || reflexivity).
    destruct (decide (u' = u)) as [->|Hne].
    + rewrite (proj2 (prefix_of_key u u p' Hcu Hcu) eq_refl). reflexivity.
    + destruct (String.prefix (u ++ ":") (cache_key u' p')) eqn:E; [|reflexivity].
      apply prefix_of_key in E; [|assumption..]. congruence.
  - reflexivity.
Qed.

Lemma C10_witness :
  (cached (clear_cache Sample.two_pair_tracker (Some "alice") (Some "web"))
          "alice" "web" = None /\
   forall u' p', plain_id u' -> (u', p') <> ("alice", "web") ->
     cached (clear_cache Sample.two_pair_tracker (Some "alice") (Some "web")) u' p'
     = cached Sample.two_pair_tracker u' p') /\
  (forall u' p', plain_id u' ->
     cached (clear_cache Sample.two_pair_tracker (Some "alice") None) u' p'
     = if decide (u' = "alice") then None else cached Sample.two_pair_tracker u' p') /\
  _cache (clear_cache Sample.two_pair_tracker None None) = ∅.
Proof.
  apply (C10_clear_cache_frame Sample.two_pair_tracker "alice" "web").
  - split; [discriminate|reflexivity].
  - discriminate.
Defined.

(** ** Audit Logger: the hash chain *)

Section LoggerChain.
Context {ft : FloatText}.

Lemma known_trail_record (l : AL.Logger) (rid : string) (event : AL.AuditEvent) :
  AL.previous_hash event = AL._last_hash l ->
  AL.ev_request_id event = rid ->
  AL.one_record l (AL.add_to_known_trail (AL._write_event l event) rid event) rid event.
Proof.
  intros Hp Hr. unfold AL.one_record, AL.add_to_known_trail, AL._write_event.
  cbn [AL._trails AL._last_hash AL.log_file].
  destruct (AL._trails l !! rid) as [t|] eqn:Et;
    cbn [AL._trails AL._last_hash AL.log_file].
  - repeat split; assumption.
  - repeat split; try assumption. left. reflexivity.
Qed.

Lemma do_call_one_record (l : AL.Logger) (c : AL.timed_call) :
  exists event,
    AL.one_record l (AL.do_call l c) (AL.call_request_id (AL.the_call c)) event.
Proof.
  destruct c as [[rid0 us0 pr0 ag0 det0| | | | | | | | |] u n]; unfold AL.do_call;
    cbn [AL.the_call AL.call_uuid AL.call_now AL.call_request_id].
  2-10: eexists; apply known_trail_record; reflexivity.
  unfold AL.log_request_received.
  match goal with |- context [AL._write_event l ?e] => set (event := e) end.
  exists event. unfold AL.one_record, AL._write_event.
  cbn [AL._trails AL._last_hash AL.log_file].
  repeat split.
  destruct (AL._trails l !! rid0) as [t|] eqn:Et.
  - reflexivity.
  - right. eexists. split; [|reflexivity]. reflexivity.
Qed.

Lemma last_snoc_event (l : list AL.AuditEvent) (e : AL.AuditEvent) :
  last (l ++ [e]) = Some e.
Proof. apply last_snoc. Qed.

Lemma tail_hash_cons (head : option string) (a : AL.AuditEvent)
    (l : list AL.AuditEvent) :
  AL.tail_hash head (a :: l) = AL.tail_hash (AL.current_hash a) l.
Proof. unfold AL.tail_hash. rewrite last_cons. destruct (last l); reflexivity. Qed.

Lemma chained_snoc (head : option string) (l : list AL.AuditEvent)
    (e : AL.AuditEvent) :
  AL.chained head l -> AL.previous_hash e = AL.tail_hash head l ->
  AL.chained head (l ++ [e]).
Proof.
  revert head. induction l as [|a l IH]; intros head Hc Hp; cbn in *.
  - split; [exact Hp|exact I].
  - destruct Hc as [Ha Hc]. split; [exact Ha|]. apply IH; [exact Hc|].
    rewrite Hp. apply tail_hash_cons.
Qed.

Lemma chain_invariant_new : AL.chain_invariant AL.new_logger.
Proof.
  split; [exact I|]. split; [reflexivity|].
  intros rid t Ht. cbn in Ht. rewrite lookup_empty in Ht. discriminate.
Qed.

Lemma chain_invariant_step (l : AL.Logger) (c : AL.timed_call) :
  AL.chain_invariant l -> AL.chain_invariant (AL.do_call l c).
Proof.
  intros (Hc & Hh & Ht).
  destruct (do_call_one_record l c) as (event & Hp & Hr & Hl & Hl' & Htr).
  set (rid0 := AL.call_request_id (AL.the_call c)) in *.
  assert (Hadd : forall t0,
            sublist (AL.events t0) (AL.log_file l) ->
            Forall (fun e => AL.ev_request_id e = rid0) (AL.events t0) ->
            sublist (AL.events (AL.add_event t0 event)) (AL.log_file l ++ [event])%list /\
            Forall (fun e => AL.ev_request_id e = rid0)
                   (AL.events (AL.add_event t0 event))).
  { intros t0 Hs Hf. unfold AL.add_event. cbn [AL.events]. split.
    - apply sublist_app; [exact Hs|reflexivity].
    - apply Forall_app. split; [exact Hf|]. constructor; [exact Hr|constructor]. }
  split; [|split].
  - rewrite Hl. apply chained_snoc; [exact Hc|]. rewrite Hp. exact Hh.
  - rewrite Hl', Hl. unfold AL.tail_hash. rewrite last_snoc_event. reflexivity.
  - intros rid t Hlook. rewrite Hl.
    assert (Hkeep : AL._trails l !! rid = Some t ->
                    sublist (AL.events t) (AL.log_file l ++ [event])%list /\
                    Forall (fun e => AL.ev_request_id e = rid) (AL.events t)).
    { intros Hold. destruct (Ht rid t Hold) as [Hs Hf].
      split; [|exact Hf]. apply sublist_inserts_r. exact Hs. }
    destruct (AL._trails l !! rid0) as [t0|] eqn:E0.
    + rewrite Htr in Hlook. destruct (decide (rid = rid0)) as [->|Hne].
      * rewrite lookup_insert_eq in Hlook. injection Hlook as <-.
        destruct (Ht rid0 t0 E0) as [Hs Hf]. apply Hadd; assumption.
      * rewrite lookup_insert_ne in Hlook by congruence. apply Hkeep, Hlook.
    + destruct Htr as [Hsame|(t0 & Hnil & Hins)].
      * rewrite Hsame in Hlook. apply Hkeep, Hlook.
      * rewrite Hins in Hlook. destruct (decide (rid = rid0)) as [->|Hne].
        -- rewrite lookup_insert_eq in Hlook. injection Hlook as <-.
           apply Hadd; rewrite Hnil; [apply sublist_nil_l|constructor].
        -- rewrite lookup_insert_ne in Hlook by congruence. apply Hkeep, Hlook.
Qed.

Lemma chain_invariant_run (calls : list AL.timed_call) (l : AL.Logger) :
  AL.chain_invariant l -> AL.chain_invariant (AL.run calls l).
Proof.
  revert l. induction calls as [|c calls IH]; intros l Hl; [exact Hl|].
  unfold AL.run. cbn [fold_left]. apply IH. apply chain_invariant_step. exact Hl.
Qed.

Lemma chained_adjacent (head : option string) (pre post : list AL.AuditEvent)
    (e1 e2 : AL.AuditEvent) :
  AL.chained head (pre ++ e1 :: e2 :: post) ->
  AL.previous_hash e2 = AL.current_hash e1.
Proof.
  revert head. induction pre as [|a pre IH]; intros head; cbn.
  - intros (_ & H & _). exact H.
  - intros [_ H]. apply (IH _ H).
Qed.

Lemma ostr_eqb_refl (o : option string) : ostr_eqb o o = true.
Proof. destruct o; cbn; [apply String.eqb_refl|reflexivity]. Qed.

Lemma chained_trail_chained (head : option string) (l : list AL.AuditEvent) :
  AL.chained head l -> AL.trail_chained l = true.
Proof.
  revert head. induction l as [|e1 l IH]; intros head Hc; [reflexivity|].
  destruct l as [|e2 l]; [reflexivity|].
  cbn [AL.trail_chained]. destruct Hc as (_ & Hc). pose proof Hc as (H12 & _).
  rewrite H12, ostr_eqb_refl. cbn [andb]. apply (IH _ Hc).
Qed.

Lemma trail_is_log_step (rid : string) (l : AL.Logger) (c : AL.timed_call) :
  AL.call_request_id (AL.the_call c) = rid ->
  AL.trail_is_log rid l -> AL.trail_is_log rid (AL.do_call l c).
Proof.
  intros Hrid (t & Ht & He).
  destruct (do_call_one_record l c) as (event & _ & _ & Hl & _ & Htr).
  rewrite Hrid, Ht in Htr.
  exists (AL.add_event t event). split.
  - rewrite Htr. apply lookup_insert_eq.
  - rewrite Hl. unfold AL.add_event. cbn [AL.events]. rewrite He. reflexivity.
Qed.

Lemma trail_is_log_run (rid : string) (calls : list AL.timed_call) (l : AL.Logger) :
  Forall (fun c => AL.call_request_id (AL.the_call c) = rid) calls ->
  AL.trail_is_log rid l -> AL.trail_is_log rid (AL.run calls l).
Proof.
  revert l. induction calls as [|c calls IH]; intros l Hall Hl; [exact Hl|].
  apply Forall_cons in Hall as [Hc Hrest].
  unfold AL.run. cbn [fold_left]. apply IH; [exact Hrest|].
  apply trail_is_log_step; assumption.
Qed.

End LoggerChain.

(** C7, as stated, fails. Two requests arrive and then the first is checked:
    the trail of the first request holds its two events, and the second of
    them names the hash of the other request's event, which was written in
    between, not the hash of the first. *)
Lemma C7_counterexample :
  option_map
    (fun t => (map AL.log_id (AL.events t), AL.trail_chained (AL.events t)))
    (AL._trails (AL.run (ft := short_decimal) Sample.interleaved AL.new_logger)
     !! "req_1")
  = Some (["log_0123456789ab"; "log_2123456789ab"], false).
Proof. vm_compute. reflexivity. Qed.

(** C7, amended. For every sequence of logging calls on a new logger, every
    record written after the first names the hash of the record written
    just before it, whatever request either belongs to; the trail of a
    request is a sub-sequence of that one chain, made of the records of that
    request; and when every call concerns the one request, opened by
    [log_request_received], its trail is the whole chain, so that each of
    its events after the first names the hash of the one before it. *)
Theorem C7_one_chain_for_the_process `{FloatText} (calls : list AL.timed_call) :
  let l := AL.run calls AL.new_logger in
  AL.chained None (AL.log_file l) /\
  (forall pre e1 e2 post,
     AL.log_file l = (pre ++ e1 :: e2 :: post)%list ->
     AL.previous_hash e2 = AL.current_hash e1) /\
  (forall rid t, AL._trails l !! rid = Some t ->
     sublist (AL.events t) (AL.log_file l) /\
     Forall (fun e => AL.ev_request_id e = rid) (AL.events t)) /\
  (forall rid us pr ag det u n rest,
     calls = AL.mkCall (AL.RequestReceived rid us pr ag det) u n :: rest ->
     Forall (fun c => AL.call_request_id (AL.the_call c) = rid) rest ->
     exists t, AL._trails l !! rid = Some t /\
               AL.events t = AL.log_file l /\
               AL.trail_chained (AL.events t) = true).
Proof.
  intros l.
  destruct (chain_invariant_run calls AL.new_logger chain_invariant_new)
    as (Hc & _ & Ht).
  fold l in Hc, Ht.
  split; [exact Hc|]. split; [|split; [exact Ht|]].
  - intros pre e1 e2 post Hl. rewrite Hl in Hc. apply (chained_adjacent _ _ _ _ _ Hc).
  - intros rid us pr ag det u n rest -> Hrest.
    assert (H1 : AL.trail_is_log rid
                   (AL.do_call AL.new_logger
                      (AL.mkCall (AL.RequestReceived rid us pr ag det) u n))).
    { unfold AL.do_call, AL.log_request_received, AL._write_event.
      cbn [AL.the_call AL.call_uuid AL.call_now AL._trails AL._last_hash
           AL.log_file AL.new_logger].
      rewrite lookup_empty. eexists. split; [apply lookup_insert_eq|]. reflexivity. }
    destruct (trail_is_log_run rid rest _ Hrest H1) as (t & Hlook & He).
    exists t. split; [exact Hlook|]. split; [exact He|].
    rewrite He. apply (chained_trail_chained None). exact Hc.
Qed.

Lemma C7_witness :
  exists t,
    AL._trails (AL.run (ft := short_decimal) Sample.one_request AL.new_logger)
    !! "req_1" = Some t /\
    AL.events t
    = AL.log_file (AL.run (ft := short_decimal) Sample.one_request AL.new_logger) /\
    AL.trail_chained (AL.events t) = true.
Proof.
  apply (proj2 (proj2 (proj2
           (C7_one_chain_for_the_process (H := short_decimal) Sample.one_request)))
           "req_1" "user_001" "proj_001" None [("provider", JStr "openai")]
           "0123456789abcdef0123456789abcdef" Sample.t0 _ eq_refl).
  repeat constructor.
Defined.

(** ** Audit entries: what the entry hash covers *)

Section EntryHash.
Context {ft : FloatText}.

Lemma same_hashed_refl (e : AM.AuditEntry) : AM.same_hashed e e.
Proof. repeat split. Qed.

Lemma verify_loop_same (todo todo' : list AM.AuditEntry) :
  Forall2 AM.same_hashed todo todo' ->
  forall done done', Forall2 AM.same_hashed done done' ->
  fst (AM.verify_loop done todo) = fst (AM.verify_loop done' todo').
Proof.
  induction 1 as [|e e' todo todo' (Htxt & Hh & Hp) Ht IH]; intros done done' Hd.
  - reflexivity.
  - cbn [AM.verify_loop]. unfold AM.calculate_hash. rewrite Htxt, Hh.
    set (h := SHA256.hexdigest (AM.hashed_text e')).
    destruct (negb (ostr_eqb (AM.entry_hash e') (Some h))); [reflexivity|].
    assert (Hnew : AM.same_hashed (AM.set_entry_hash e (Some h))
                                  (AM.set_entry_hash e' (Some h))).
    { split; [exact Htxt|]. split; [reflexivity|exact Hp]. }
    destruct Hd as [|p p' done done' Hpp Hd].
    + apply IH. constructor; [exact Hnew|constructor].
    + change (AM.previous_hash (AM.set_entry_hash e (Some h)))
        with (AM.previous_hash e).
      change (AM.previous_hash (AM.set_entry_hash e' (Some h)))
        with (AM.previous_hash e').
      pose proof Hpp as (_ & Hph & _). rewrite Hp, Hph.
      destruct (negb (ostr_eqb (AM.previous_hash e') (AM.entry_hash p')));
        [reflexivity|].
      apply IH. constructor; [exact Hnew|].
      constructor; [exact Hpp|exact Hd].
Qed.

Lemma alter_same (f : AM.AuditEntry -> AM.AuditEntry) (es : list AM.AuditEntry)
    (i : nat) :
  (forall e, AM.same_hashed (f e) e) ->
  Forall2 AM.same_hashed (alter f i es) es.
Proof.
  intros Hf. revert i. induction es as [|e es IH]; intros [|i]; cbn.
  - constructor.
  - constructor.
  - constructor; [apply Hf|]. apply Forall2_same_length_lookup_2; [reflexivity|].
    intros j x y Hx Hy. rewrite Hx in Hy. injection Hy as <-. apply same_hashed_refl.
  - constructor; [apply same_hashed_refl|apply IH].
Qed.

Lemma verify_integrity_fst (l : AM.AuditLog) :
  fst (AM.verify_integrity l) = fst (AM.verify_loop [] (AM.entries l)).
Proof. unfold AM.verify_integrity. destruct (AM.verify_loop [] (AM.entries l)). reflexivity. Qed.

(** A change of a field the digest leaves out does not change the verdict. *)
Lemma unhashed_change_unseen (f : AM.AuditEntry -> AM.AuditEntry)
    (l : AM.AuditLog) (i : nat) :
  (forall e, AM.same_hashed (f e) e) ->
  fst (AM.verify_integrity (AM.mutate i f l)) = fst (AM.verify_integrity l).
Proof.
  intros Hf. rewrite !verify_integrity_fst. unfold AM.mutate. cbn [AM.set_entries AM.entries].
  apply verify_loop_same; [apply alter_same, Hf|constructor].
Qed.

(** C2 does not hold of the code. [AuditEntry.calculate_hash] digests seven
    fields (log id, request id, event type, timestamp, event details, result,
    previous hash) and leaves out [user_id], [project_id], [agent_id],
    [context_snapshot] and [error]: whatever the log and the entry, a change
    of one of these leaves the verdict of [verify_integrity] as it was. In a
    log of three entries built with [add_entry], which verifies, the user of
    the middle entry is rewritten: it still verifies. *)
Theorem C2_unhashed_fields_escape_verification :
  (forall l i v,
     fst (AM.verify_integrity (AM.mutate i (fun e => AM.set_user_id e v) l))
     = fst (AM.verify_integrity l)) /\
  (forall l i v,
     fst (AM.verify_integrity (AM.mutate i (fun e => AM.set_project_id e v) l))
     = fst (AM.verify_integrity l)) /\
  (forall l i v,
     fst (AM.verify_integrity (AM.mutate i (fun e => AM.set_agent_id e v) l))
     = fst (AM.verify_integrity l)) /\
  (forall l i v,
     fst (AM.verify_integrity (AM.mutate i (fun e => AM.set_context_snapshot e v) l))
     = fst (AM.verify_integrity l)) /\
  (forall l i v,
     fst (AM.verify_integrity (AM.mutate i (fun e => AM.set_error e v) l))
     = fst (AM.verify_integrity l)) /\
  (let tampered :=
     AM.mutate 1 (fun e => AM.set_user_id e (Some "mallory")) Sample.audit_log in
   fst (AM.verify_integrity Sample.audit_log) = true /\
   AM.user_id <$> (AM.entries Sample.audit_log !! 1%nat) = Some (Some "user_001") /\
   AM.user_id <$> (AM.entries tampered !! 1%nat) = Some (Some "mallory") /\
   fst (AM.verify_integrity tampered) = true).
Proof.
  repeat match goal with |- _ /\ _ => split end;
    try (intros l i v; apply unhashed_change_unseen; intros e; repeat split).
  all: vm_compute; repeat split.
Qed.

(** The spec's scenario S6, on a hashed field: one character of the middle
    entry's details is changed and the log no longer verifies; the first
    entry whose stored hash disagrees is that one. *)
Lemma tampered_details_detected :
  let tampered :=
    AM.mutate 1 (fun e => AM.set_event_details e [("compliant", JBool false)])
              Sample.audit_log in
  fst (AM.verify_integrity tampered) = false /\
  fst (AM.verify_loop [] (firstn 1 (AM.entries tampered))) = true /\
  fst (AM.verify_loop [] (firstn 2 (AM.entries tampered))) = false.
Proof. vm_compute. repeat split. Qed.

(** [verify_integrity] stores each digest it recomputes: after a failed
    verification of a log whose last entry was altered, the stored hash of
    that entry has been replaced, and a second verification passes. *)
Lemma verification_overwrites_stored_hash :
  let tampered :=
    AM.mutate 2 (fun e => AM.set_event_details e [("decision", JStr "REJECT")])
              Sample.audit_log in
  fst (AM.verify_integrity tampered) = false /\
  fst (AM.verify_integrity (snd (AM.verify_integrity tampered))) = true.
Proof. vm_compute. repeat split. Qed.

End EntryHash.

(** ** The allow-list check, case by case (Decision Engine) *)



(** ** The deny list (Policy Manager and Decision Engine) *)



(** The engine's check accepts the provider the policy forbids. *)
Example engine_allows_a_denied_provider :
  pm_valid (_validate_provider_model Sample.chat_request
              (Some Sample.denied_policy)) = true.
Proof. reflexivity. Qed.

(** ** Risk factors and assessments (Risk Detector) *)







(** ** Time restrictions and the compliance result (Policy Manager) *)







Section Consistent.
Context {ft : FloatText}.






End Consistent.

(** ** The status cache (Budget Tracker) *)








(** ** Records and trails (Audit Logger) *)

Section LoggerRecords.
Context {ft : FloatText}.








End LoggerRecords.



(** ** Logs built with add_entry (audit models) *)

Section BuiltLogs.
Context {ft : FloatText}.






End BuiltLogs.

